(** * Metrics query construction: a shallow embedding

  The development follows the TypeScript sources of the metrics system:

  - [Metrics]: the ClickHouse metrics module (granularity parsing, the
    time-bucket selector, the aggregation-expression builder, the
    query-builder factories and [createMetricsQuery]);
  - [Service]: the webapp's [MetricsService];
  - [Route]: the loader of the metrics resource route and the
    [MetricPresenter] it calls.

  JavaScript strings are modelled by [string], thrown [Error] objects by
  their message, optional fields by [option], and the mutable chainable
  builder by explicit state passing. *)

From Stdlib Require Import String Ascii List ZArith Bool Lia.
Import ListNotations.
Local Open Scope list_scope.
Local Open Scope string_scope.

(** ** JavaScript preliminaries *)

Module Js.

(** A thrown [new Error(message)]. *)
Record Error := mkError { message : string }.

(** Outcome of a call that either returns or throws. *)
Inductive Result (E A : Type) :=
| Ok (value : A)
| Throw (thrown : E).
Arguments Ok {E A} value.
Arguments Throw {E A} thrown.

Definition bind {E A B} (r : Result E A) (k : A -> Result E B) : Result E B :=
  match r with
  | Ok a => k a
  | Throw e => Throw e
  end.

(** Truthiness of a string: only the empty string is falsy. *)
Definition truthy_string (s : string) : bool :=
  match s with
  | EmptyString => false
  | String _ _ => true
  end.

(** Truthiness of an optional object: every object is truthy. *)
Definition truthy_opt_object {A} (o : option A) : bool :=
  match o with
  | Some _ => true
  | None => false
  end.

Definition dq : string := String (ascii_of_nat 34) EmptyString.
Definition nl : string := String (ascii_of_nat 10) EmptyString.

End Js.

Notation "x <- r ;; k" := (Js.bind r (fun x => k))
  (at level 61, r at next level, right associativity).

(** ** The ClickHouse metrics module *)

Module Metrics.
Import Js.

(** *** The granularity pattern [/^(\d+)([smhd])$/]

    The pattern only tells ASCII digits and four ASCII letters from
    everything else, so a string is read here as its sequence of bytes:
    the bytes of a character outside ASCII are neither digits nor unit
    letters, as the character itself is for the pattern. *)

(** [\d]: an ASCII decimal digit. *)
Definition is_digit (c : ascii) : bool :=
  let n := nat_of_ascii c in ((48 <=? n) && (n <=? 57))%nat.

(** [[smhd]]. *)
Definition is_unit (c : ascii) : bool :=
  match c with
  | "s"%char | "m"%char | "h"%char | "d"%char => true
  | _ => false
  end.

(** The longest prefix of digits, and what follows it: the greedy [\d*]. *)
Fixpoint digits_prefix (s : string) : string * string :=
  match s with
  | EmptyString => (EmptyString, EmptyString)
  | String c rest =>
      if is_digit c then
        let (ds, tl) := digits_prefix rest in (String c ds, tl)
      else (EmptyString, s)
  end.

(** [granularity.match(/^(\d+)([smhd])$/)]: the two captures, or [None]
    for a [null] match.  No unit letter is a digit, so the greedy digit
    run never has to give a character back. *)
Definition match_granularity (granularity : string) : option (string * ascii) :=
  match digits_prefix granularity with
  | (EmptyString, _) => None
  | (amount, String unit EmptyString) =>
      if is_unit unit then Some (amount, unit) else None
  | (_, _) => None
  end.

(** The grammar itself, stated independently of the matcher: one or more
    digits followed by exactly one unit letter. *)
Inductive Digits : string -> Prop :=
| Digits_one c : is_digit c = true -> Digits (String c EmptyString)
| Digits_more c ds : is_digit c = true -> Digits ds -> Digits (String c ds).

Definition in_grammar (granularity : string) : Prop :=
  exists amount unit,
    granularity = amount ++ String unit EmptyString
    /\ Digits amount /\ is_unit unit = true.

Definition invalid_granularity_message (granularity : string) : string :=
  "Invalid granularity format: " ++ granularity
    ++ ". Expected format like " ++ dq ++ "1m" ++ dq ++ ", " ++ dq ++ "5m" ++ dq
    ++ ", " ++ dq ++ "1h" ++ dq ++ ", " ++ dq ++ "1d" ++ dq.

(** The error the specification calls InvalidGranularity. *)
Definition InvalidGranularity (granularity : string) : Error :=
  mkError (invalid_granularity_message granularity).

Definition unitMap (unit : ascii) : string :=
  match unit with
  | "s"%char => "SECOND"
  | "m"%char => "MINUTE"
  | "h"%char => "HOUR"
  | "d"%char => "DAY"
  | _ => "undefined"
  end.

(** [granularityToInterval]: the only place that rejects a granularity.
    No other function of the module calls it. *)
Definition granularityToInterval (granularity : string) : Result Error string :=
  match match_granularity granularity with
  | None => Throw (InvalidGranularity granularity)
  | Some (amount, unit) => Ok (amount ++ " " ++ unitMap unit)
  end.

Definition minute_bucket : string := "toStartOfMinute(toDateTime(created_at))".
Definition hour_bucket : string := "toStartOfHour(toDateTime(created_at))".
Definition day_bucket : string := "toDate(toDateTime(created_at))".

(** [getTimeBucketFunction]. *)
Definition getTimeBucketFunction (granularity : string) : string :=
  match match_granularity granularity with
  | None => minute_bucket
  | Some (amount, unit) =>
      if ((unit =? "s") || (unit =? "m"))%char then minute_bucket
      else if (unit =? "h")%char then hour_bucket
      else if (unit =? "d")%char then day_bucket
      else minute_bucket
  end.

(** *** Rollups *)

Inductive RollupType := Rcount | Rsum | Ravg | Rmin | Rmax | Rdistinct.

(** The string literal of each member of the union type. *)
Definition rollup_name (t : RollupType) : string :=
  match t with
  | Rcount => "count"
  | Rsum => "sum"
  | Ravg => "avg"
  | Rmin => "min"
  | Rmax => "max"
  | Rdistinct => "distinct"
  end.

(** [buildAggregationExpression].  The [default] arm of the switch is
    unreachable for a value of the union type. *)
Definition buildAggregationExpression (rollupType : RollupType) (column : string) : string :=
  match rollupType with
  | Rcount => if (column =? "*")%string then "count()" else "count(" ++ column ++ ")"
  | Rsum => "sum(" ++ column ++ ")"
  | Ravg => "avg(" ++ column ++ ")"
  | Rmin => "min(" ++ column ++ ")"
  | Rmax => "max(" ++ column ++ ")"
  | Rdistinct => "uniq(" ++ column ++ ")"
  end.

(** *** Query parameters *)

(** A value of [z.union([z.string(), z.number()])].  The numbers of the
    schema are epoch timestamps; the code only passes them on and tests
    them for truthiness, so they are modelled by integers. *)
Inductive StringOrNumber :=
| Str (s : string)
| Num (n : Z).

Definition truthy_value (v : StringOrNumber) : bool :=
  match v with
  | Str s => truthy_string s
  | Num n => negb (n =? 0)%Z
  end.

Record Filters := mkFilters {
  task_identifier : option string;
  status : option string;
  queue : option string
}.

Record Rollup := mkRollup {
  type : RollupType;
  column : string
}.

Record MetricQueryParams := mkMetricQueryParams {
  organizationId : string;
  projectId : string;
  environmentId : string;
  startTime : StringOrNumber;
  endTime : option StringOrNumber;
  granularity : string;
  filters : option Filters;
  groupBy : option string;
  rollup : option Rollup
}.

(** [params.filters?.f]: [undefined] when [filters] is. *)
Definition filter_field (f : Filters -> option string) (p : MetricQueryParams) : option string :=
  match filters p with
  | Some fs => f fs
  | None => None
  end.

(** *** The query builder of the database client *)

Definition ClickHouseSettings := list (string * Z).

(** The argument object of [ch.queryBuilder]; the result schema, which
    only matters when the query is executed, is left out. *)
Record QueryBuilderArgs := mkArgs {
  name : string;
  baseQuery : string;
  settings : option ClickHouseSettings
}.

(** One chained call on a builder. *)
Inductive Clause :=
| Where (clause : string) (bindings : list (string * StringOrNumber))
| GroupBy (clause : string)
| OrderBy (clause : string).

Section Reader.

(** The reader half of the database client is an opaque handle. *)
Variable ClickhouseReader : Type.

(** Modelled from the spec: the chainable builder of the database client,
    whose class is not among the sources.  It "accumulates WHERE / GROUP BY
    / ORDER BY clauses"; the model keeps the factory arguments and the
    chained calls in the order they were made.  Each call mutates the
    builder and returns it, which is state passing here. *)
Record Builder := mkBuilder {
  reader : ClickhouseReader;
  args : QueryBuilderArgs;
  clauses : list Clause
}.

(** Modelled from the spec: a chained call appends its clause to the
    builder it is made on. *)
Definition chain (c : Clause) (b : Builder) : Builder :=
  mkBuilder (reader b) (args b) (clauses b ++ [c]).

(** Modelled from the spec: the builder's [where], [groupBy] and [orderBy]
    methods, as chained calls. *)
Definition where_ (clause : string) (bindings : list (string * StringOrNumber)) : Builder -> Builder :=
  chain (Where clause bindings).

Definition groupBy_ (clause : string) : Builder -> Builder :=
  chain (GroupBy clause).

Definition orderBy_ (clause : string) : Builder -> Builder :=
  chain (OrderBy clause).

(** Modelled from the spec: the client's query-builder factory, which
    "accepts a name, base SQL, result schema, optional engine settings";
    [ch.queryBuilder(args)] is a function that makes a fresh builder. *)
Definition queryBuilder (ch : ClickhouseReader) (a : QueryBuilderArgs) : unit -> Builder :=
  fun _ => mkBuilder ch a [].

(** *** Builder factories *)

(** A template literal that spans several source lines. *)
Definition lines (ls : list string) : string := String.concat nl ls.

Definition getMetricsQueryBuilder (ch : ClickhouseReader) (settings : option ClickHouseSettings) :=
  queryBuilder ch (mkArgs "getMetrics"
    (lines [ "";
             "      SELECT";
             "        " ++ getTimeBucketFunction "1m" ++ " as timestamp,";
             "        count() as value";
             "      FROM trigger_dev.task_runs_v2 FINAL";
             "    " ])
    settings).

Definition getDynamicMetricsQueryBuilder (ch : ClickhouseReader) (granularity : string)
    (rollupType : RollupType) (column : string) (settings : option ClickHouseSettings) :=
  let timeBucketFunction := getTimeBucketFunction granularity in
  let aggregationExpression := buildAggregationExpression rollupType column in
  queryBuilder ch (mkArgs
    ("getDynamicMetrics_" ++ rollup_name rollupType ++ "_" ++ column ++ "_" ++ granularity)
    (lines [ "";
             "      SELECT";
             "        " ++ timeBucketFunction ++ " as timestamp,";
             "        " ++ aggregationExpression ++ " as value";
             "      FROM trigger_dev.task_runs_v2 FINAL";
             "    " ])
    settings).

Definition getTaskRunCountMetrics (ch : ClickhouseReader) (settings : option ClickHouseSettings) :=
  queryBuilder ch (mkArgs "getTaskRunCountMetrics"
    (lines [ "";
             "      SELECT";
             "        " ++ getTimeBucketFunction "1m" ++ " as timestamp,";
             "        count() as value,";
             "        task_identifier as label";
             "      FROM trigger_dev.task_runs_v2 FINAL";
             "    " ])
    settings).

Definition getTaskRunDurationMetrics (ch : ClickhouseReader) (settings : option ClickHouseSettings) :=
  queryBuilder ch (mkArgs "getTaskRunDurationMetrics"
    (lines [ "";
             "      SELECT";
             "        " ++ getTimeBucketFunction "1m" ++ " as timestamp,";
             "        avg(usage_duration_ms) as value,";
             "        task_identifier as label";
             "      FROM trigger_dev.task_runs_v2 FINAL";
             "      WHERE usage_duration_ms > 0";
             "    " ])
    settings).

Definition getTaskRunCostMetrics (ch : ClickhouseReader) (settings : option ClickHouseSettings) :=
  queryBuilder ch (mkArgs "getTaskRunCostMetrics"
    (lines [ "";
             "      SELECT";
             "        " ++ getTimeBucketFunction "1m" ++ " as timestamp,";
             "        sum(cost_in_cents) as value,";
             "        task_identifier as label";
             "      FROM trigger_dev.task_runs_v2 FINAL";
             "      WHERE cost_in_cents > 0";
             "    " ])
    settings).

Definition getTaskRunStatusMetrics (ch : ClickhouseReader) (settings : option ClickHouseSettings) :=
  queryBuilder ch (mkArgs "getTaskRunStatusMetrics"
    (lines [ "";
             "      SELECT";
             "        " ++ getTimeBucketFunction "1m" ++ " as timestamp,";
             "        count() as value,";
             "        status as label";
             "      FROM trigger_dev.task_runs_v2 FINAL";
             "    " ])
    settings).

(** The aggregations [getCustomMetrics] accepts. *)
Inductive Aggregation := Acount | Asum | Aavg | Amin | Amax.

Definition aggregation_name (a : Aggregation) : string :=
  match a with
  | Acount => "count"
  | Asum => "sum"
  | Aavg => "avg"
  | Amin => "min"
  | Amax => "max"
  end.

(** The [baseQuery] constant of [getCustomMetrics], before the filter. *)
Definition customBaseQuery (aggregation : Aggregation) (column : string) : string :=
  lines [ "";
          "    SELECT";
          "      " ++ getTimeBucketFunction "1m" ++ " as timestamp,";
          "      " ++ aggregation_name aggregation ++ "(" ++ column ++ ") as value,";
          "      task_identifier as label";
          "    FROM trigger_dev.task_runs_v2 FINAL";
          "  " ].

(** The [whereClause] constant of [getCustomMetrics]. *)
Definition customWhereClause (aggregation : Aggregation) (column : string) : string :=
  match aggregation with
  | Aavg | Asum | Amin | Amax => "WHERE " ++ column ++ " > 0"
  | Acount => ""
  end.

Definition getCustomMetrics (ch : ClickhouseReader) (metric : string)
    (aggregation : Aggregation) (column : string) (settings : option ClickHouseSettings) :=
  let baseQuery := customBaseQuery aggregation column in
  let whereClause := customWhereClause aggregation column in
  queryBuilder ch (mkArgs
    ("getCustomMetrics_" ++ metric ++ "_" ++ aggregation_name aggregation)
    (baseQuery ++ whereClause)
    settings).

(** *** [createMetricsQuery] *)

Inductive MetricType := MTcount | MTduration | MTcost | MTstatus | MTcustom.

Record CustomMetric := mkCustomMetric {
  aggregation : Aggregation;
  custom_column : string
}.

(** The first half of [createMetricsQuery]: which factory is used.  The
    [default] arm of the switch cannot be reached by a [MetricType]. *)
Definition selectQueryBuilder (ch : ClickhouseReader) (params : MetricQueryParams)
    (metricType : option MetricType) (customMetric : option CustomMetric)
    : Result Error (unit -> Builder) :=
  match rollup params with
  | Some r =>
      Ok (getDynamicMetricsQueryBuilder ch (granularity params) (type r) (column r) None)
  | None =>
      match metricType with
      | Some MTcount => Ok (getTaskRunCountMetrics ch None)
      | Some MTduration => Ok (getTaskRunDurationMetrics ch None)
      | Some MTcost => Ok (getTaskRunCostMetrics ch None)
      | Some MTstatus => Ok (getTaskRunStatusMetrics ch None)
      | Some MTcustom =>
          match customMetric with
          | None => Throw (mkError "customMetric is required for custom metric type")
          | Some cm => Ok (getCustomMetrics ch "custom" (aggregation cm) (custom_column cm) None)
          end
      | None => Throw (mkError "Either metricType or rollup must be specified")
      end
  end.

(** The second half works on the fresh builder, one statement of the
    source after the other.  First the standard filters. *)
Definition addStandardFilters (params : MetricQueryParams) (builder : Builder) : Builder :=
  where_ "created_at >= toUnixTimestamp({startTime:DateTime64})"
         [("startTime", startTime params)]
    (where_ "_is_deleted = 0" []
      (where_ "environment_id = {environmentId:String}"
              [("environmentId", Str (environmentId params))]
        (where_ "project_id = {projectId:String}"
                [("projectId", Str (projectId params))]
          (where_ "organization_id = {organizationId:String}"
                  [("organizationId", Str (organizationId params))]
            builder)))).

(** [if (params.endTime) { builder.where(...) }]. *)
Definition addEndTimeFilter (params : MetricQueryParams) (builder : Builder) : Builder :=
  match endTime params with
  | Some t =>
      if truthy_value t then
        where_ "created_at <= toUnixTimestamp({endTime:DateTime64})" [("endTime", t)] builder
      else builder
  | None => builder
  end.

(** [if (params.filters?.task_identifier) { ... }]. *)
Definition addTaskFilter (params : MetricQueryParams) (builder : Builder) : Builder :=
  match filter_field task_identifier params with
  | Some v =>
      if truthy_string v then
        where_ "task_identifier = {taskIdentifier:String}" [("taskIdentifier", Str v)] builder
      else builder
  | None => builder
  end.

(** [if (params.filters?.status) { ... }]. *)
Definition addStatusFilter (params : MetricQueryParams) (builder : Builder) : Builder :=
  match filter_field status params with
  | Some v =>
      if truthy_string v then where_ "status = {status:String}" [("status", Str v)] builder
      else builder
  | None => builder
  end.

(** [if (params.filters?.queue) { ... }]. *)
Definition addQueueFilter (params : MetricQueryParams) (builder : Builder) : Builder :=
  match filter_field queue params with
  | Some v =>
      if truthy_string v then where_ "queue = {queue:String}" [("queue", Str v)] builder
      else builder
  | None => builder
  end.

(** The grouping statement:
    [if (groupBy && groupBy !== "task_identifier") ... else if (!groupBy && !rollup) ...].
    On an [undefined] group-by the first test fails and [!groupBy] holds. *)
Definition addGrouping (params : MetricQueryParams) (builder : Builder) : Builder :=
  match groupBy params with
  | Some g =>
      if truthy_string g && negb (g =? "task_identifier")%string then groupBy_ g builder
      else if negb (truthy_string g) && negb (truthy_opt_object (rollup params)) then
        groupBy_ "task_identifier" builder
      else builder
  | None =>
      if negb (truthy_opt_object (rollup params)) then groupBy_ "task_identifier" builder
      else builder
  end.

Definition addClauses (params : MetricQueryParams) (builder : Builder) : Builder :=
  let builder := addStandardFilters params builder in
  let builder := addEndTimeFilter params builder in
  let builder := addTaskFilter params builder in
  let builder := addStatusFilter params builder in
  let builder := addQueueFilter params builder in
  let builder := addGrouping params builder in
  orderBy_ "timestamp ASC" builder.

Definition createMetricsQuery (ch : ClickhouseReader) (params : MetricQueryParams)
    (metricType : option MetricType) (customMetric : option CustomMetric)
    : Result Error Builder :=
  queryBuilder <- selectQueryBuilder ch params metricType customMetric ;;
  Ok (addClauses params (queryBuilder tt)).

End Reader.

Arguments reader {ClickhouseReader} b.
Arguments args {ClickhouseReader} b.
Arguments clauses {ClickhouseReader} b.
Arguments mkBuilder {ClickhouseReader} reader args clauses.
Arguments chain {ClickhouseReader} c b.
Arguments where_ {ClickhouseReader} clause bindings b.
Arguments groupBy_ {ClickhouseReader} clause b.
Arguments orderBy_ {ClickhouseReader} clause b.
Arguments queryBuilder {ClickhouseReader} ch a _.
Arguments getMetricsQueryBuilder {ClickhouseReader} ch settings _.
Arguments getDynamicMetricsQueryBuilder {ClickhouseReader} ch granularity rollupType column settings _.
Arguments getTaskRunCountMetrics {ClickhouseReader} ch settings _.
Arguments getTaskRunDurationMetrics {ClickhouseReader} ch settings _.
Arguments getTaskRunCostMetrics {ClickhouseReader} ch settings _.
Arguments getTaskRunStatusMetrics {ClickhouseReader} ch settings _.
Arguments getCustomMetrics {ClickhouseReader} ch metric aggregation column settings _.
Arguments selectQueryBuilder {ClickhouseReader} ch params metricType customMetric.
Arguments addStandardFilters {ClickhouseReader} params builder.
Arguments addEndTimeFilter {ClickhouseReader} params builder.
Arguments addTaskFilter {ClickhouseReader} params builder.
Arguments addStatusFilter {ClickhouseReader} params builder.
Arguments addQueueFilter {ClickhouseReader} params builder.
Arguments addGrouping {ClickhouseReader} params builder.
Arguments addClauses {ClickhouseReader} params builder.
Arguments createMetricsQuery {ClickhouseReader} ch params metricType customMetric.

End Metrics.

(** ** The zod schemas of the metrics module *)

Module Schema.
Import Js Metrics.

(** An untyped JavaScript value, as handed to a schema's [parse]. *)
#[warnings="-register-all"]
Inductive JsValue :=
| VUndefined
| VNull
| VBool (b : bool)
| VNum (n : Z)
| VStr (s : string)
| VObj (fields : list (string * JsValue))
| VArr (items : list JsValue).

(** Property access [o.key]: [undefined] when the key is missing. *)
Fixpoint get (key : string) (fields : list (string * JsValue)) : JsValue :=
  match fields with
  | [] => VUndefined
  | (k, v) :: rest => if (k =? key)%string then v else get key rest
  end.

(** [z.string()]: any string, the empty one included. *)
Definition z_string (v : JsValue) : option string :=
  match v with
  | VStr s => Some s
  | _ => None
  end.

(** [z.union([z.string(), z.number()])]. *)
Definition z_string_or_number (v : JsValue) : option StringOrNumber :=
  match v with
  | VStr s => Some (Str s)
  | VNum n => Some (Num n)
  | _ => None
  end.

(** [schema.optional()]: [undefined] passes, anything else goes to [schema]. *)
Definition z_optional {A} (schema : JsValue -> option A) (v : JsValue) : option (option A) :=
  match v with
  | VUndefined => Some None
  | _ => option_map Some (schema v)
  end.

(** [z.enum(["count", "sum", "avg", "min", "max", "distinct"])]. *)
Definition z_rollup_type (v : JsValue) : option RollupType :=
  match v with
  | VStr s =>
      if (s =? "count")%string then Some Rcount
      else if (s =? "sum")%string then Some Rsum
      else if (s =? "avg")%string then Some Ravg
      else if (s =? "min")%string then Some Rmin
      else if (s =? "max")%string then Some Rmax
      else if (s =? "distinct")%string then Some Rdistinct
      else None
  | _ => None
  end.

(** The [rollup] object schema: [{ type: z.enum([...]), column: z.string() }]. *)
Definition z_rollup (v : JsValue) : option Rollup :=
  match v with
  | VObj fs =>
      match z_rollup_type (get "type" fs), z_string (get "column" fs) with
      | Some t, Some c => Some (mkRollup t c)
      | _, _ => None
      end
  | _ => None
  end.

(** The [filters] object schema. *)
Definition z_filters (v : JsValue) : option Filters :=
  match v with
  | VObj fs =>
      match z_optional z_string (get "task_identifier" fs),
            z_optional z_string (get "status" fs),
            z_optional z_string (get "queue" fs) with
      | Some t, Some s, Some q => Some (mkFilters t s q)
      | _, _, _ => None
      end
  | _ => None
  end.

(** [MetricQueryParams.safeParse]: the accepted parameters, or [None]. *)
Definition parseMetricQueryParams (v : JsValue) : option MetricQueryParams :=
  match v with
  | VObj fs =>
      match z_string (get "organizationId" fs),
            z_string (get "projectId" fs),
            z_string (get "environmentId" fs),
            z_string_or_number (get "startTime" fs),
            z_optional z_string_or_number (get "endTime" fs),
            z_string (get "granularity" fs),
            z_optional z_filters (get "filters" fs),
            z_optional z_string (get "groupBy" fs),
            z_optional z_rollup (get "rollup" fs) with
      | Some o, Some p, Some e, Some st, Some et, Some g, Some f, Some gb, Some r =>
          Some (mkMetricQueryParams o p e st et g f gb r)
      | _, _, _, _, _, _, _, _, _ => None
      end
  | _ => None
  end.

End Schema.

(** ** The webapp's metrics service *)

Module Service.
Import Js.

(** The API-side [MetricQueryParams]: no tenant scope. *)
Record APIMetricQueryParams := mkAPIParams {
  startTime : Metrics.StringOrNumber;
  endTime : option Metrics.StringOrNumber;
  granularity : string;
  filters : option Metrics.Filters;
  groupBy : option string;
  rollup : option Metrics.Rollup
}.

Definition convertAPIParamsToClickHouseParams (apiParams : APIMetricQueryParams)
    (organizationId projectId environmentId : string) : Metrics.MetricQueryParams :=
  Metrics.mkMetricQueryParams organizationId projectId environmentId
    (startTime apiParams) (endTime apiParams) (granularity apiParams)
    (filters apiParams) (groupBy apiParams) (rollup apiParams).

Record MetricDataPoint := mkPoint {
  timestamp : string;
  value : Z;
  label : option string
}.

Record MetricResult := mkResult {
  metric : string;
  data : list MetricDataPoint
}.

(** The metric types [getTaskRunMetrics] accepts: no custom one. *)
Inductive ServiceMetricType := Scount | Sduration | Scost | Sstatus.

Definition to_metric_type (m : ServiceMetricType) : Metrics.MetricType :=
  match m with
  | Scount => Metrics.MTcount
  | Sduration => Metrics.MTduration
  | Scost => Metrics.MTcost
  | Sstatus => Metrics.MTstatus
  end.

Section Client.

Variable ClickhouseReader : Type.

(** What the service does with its client, in order. *)
Inductive Event :=
| CreateQuery (params : Metrics.MetricQueryParams) (metricType : option Metrics.MetricType)
| Execute (query : Metrics.Builder ClickhouseReader).

(** Modelled from the spec: the [ClickHouse] client class is not among the
    sources.  Its [metrics.createQuery] is the exposed form of
    [createMetricsQuery] on the client's reader, and a builder's
    [execute()] "delegates to the external client and yields a tuple of
    (error-or-null, typed-result-or-undefined)". *)
Record ClickHouse := mkClickHouse {
  client_reader : ClickhouseReader;
  execute : Metrics.Builder ClickhouseReader -> option Error * option MetricResult
}.

Definition createQuery (clickhouse : ClickHouse) (params : Metrics.MetricQueryParams)
    (metricType : option Metrics.MetricType) :=
  Metrics.createMetricsQuery (client_reader clickhouse) params metricType None.

(** A run of a service method: the client calls made, and the outcome. *)
Definition Run (A : Type) : Type := list Event * Result Error A.

(** The shared tail of both service methods: build, execute, unwrap. *)
Definition runQuery (clickhouse : ClickHouse) (prefix : string)
    (params : Metrics.MetricQueryParams) (metricType : option Metrics.MetricType)
    : Run (option MetricResult) :=
  match createQuery clickhouse params metricType with
  | Throw e => ([CreateQuery params metricType], Throw e)
  | Ok query =>
      let (error, result) := execute clickhouse query in
      ([CreateQuery params metricType; Execute query],
       match error with
       | Some e => Throw (mkError (prefix ++ message e))
       | None => Ok result
       end)
  end.

Definition getTaskRunMetrics (clickhouse : ClickHouse) (params : APIMetricQueryParams)
    (organizationId projectId environmentId : string) (metricType : option ServiceMetricType)
    : Run (option MetricResult) :=
  let metricType := match metricType with Some m => m | None => Scount end in
  let clickhouseParams :=
    convertAPIParamsToClickHouseParams params organizationId projectId environmentId in
  runQuery clickhouse "Failed to fetch metrics: " clickhouseParams
    (Some (to_metric_type metricType)).

Definition getDynamicMetrics (clickhouse : ClickHouse) (params : APIMetricQueryParams)
    (organizationId projectId environmentId : string) : Run (option MetricResult) :=
  if negb (truthy_opt_object (rollup params)) then
    ([], Throw (mkError "rollup parameter is required for dynamic metrics"))
  else
    let clickhouseParams :=
      convertAPIParamsToClickHouseParams params organizationId projectId environmentId in
    runQuery clickhouse "Failed to fetch dynamic metrics: " clickhouseParams None.

(** The four specific metric methods. *)
Definition getTaskRunCount (clickhouse : ClickHouse) (params : APIMetricQueryParams)
    (organizationId projectId environmentId : string) : Run (option MetricResult) :=
  getTaskRunMetrics clickhouse params organizationId projectId environmentId (Some Scount).

Definition getTaskRunDuration (clickhouse : ClickHouse) (params : APIMetricQueryParams)
    (organizationId projectId environmentId : string) : Run (option MetricResult) :=
  getTaskRunMetrics clickhouse params organizationId projectId environmentId (Some Sduration).

Definition getTaskRunCost (clickhouse : ClickHouse) (params : APIMetricQueryParams)
    (organizationId projectId environmentId : string) : Run (option MetricResult) :=
  getTaskRunMetrics clickhouse params organizationId projectId environmentId (Some Scost).

Definition getTaskRunStatus (clickhouse : ClickHouse) (params : APIMetricQueryParams)
    (organizationId projectId environmentId : string) : Run (option MetricResult) :=
  getTaskRunMetrics clickhouse params organizationId projectId environmentId (Some Sstatus).

End Client.

Arguments getTaskRunCount {ClickhouseReader} clickhouse params organizationId projectId environmentId.
Arguments getTaskRunDuration {ClickhouseReader} clickhouse params organizationId projectId environmentId.
Arguments getTaskRunCost {ClickhouseReader} clickhouse params organizationId projectId environmentId.
Arguments getTaskRunStatus {ClickhouseReader} clickhouse params organizationId projectId environmentId.
Arguments CreateQuery {ClickhouseReader} params metricType.
Arguments Execute {ClickhouseReader} query.
Arguments mkClickHouse {ClickhouseReader} client_reader execute.
Arguments client_reader {ClickhouseReader} c.
Arguments execute {ClickhouseReader} c _.
Arguments createQuery {ClickhouseReader} clickhouse params metricType.
Arguments runQuery {ClickhouseReader} clickhouse prefix params metricType.
Arguments getTaskRunMetrics {ClickhouseReader} clickhouse params organizationId projectId environmentId metricType.
Arguments getDynamicMetrics {ClickhouseReader} clickhouse params organizationId projectId environmentId.

End Service.

(** ** The metrics resource route *)

Module Route.
Import Js.

(** [new Response(body, { status })]; the status defaults to 200.  A body
    is a text, the JSON of a presenter result, or the JSON of [null]. *)
Inductive Body :=
| Text (text : string)
| Json (metrics : list unit)
| JsonNull.

Record Response := mkResponse {
  body : Body;
  status : Z
}.

(** What [JSON.stringify] does with a value: it returns a text, returns
    [undefined] (for [undefined], functions and symbols), or throws a
    [TypeError] (for circular structures and BigInt values). *)
Inductive Stringified :=
| JsonText (json : string)
| JsonUndefined
| JsonTypeError (error : Error).

(** A value that is neither a [Response] nor an [Error], by what the
    loader can observe of it: its truthiness, its [message] property
    ([None] for [undefined]) and what [JSON.stringify] makes of it. *)
Record OtherValue := mkOther {
  other_truthy : bool;
  other_message : option string;
  other_json : Stringified
}.

(** Anything JavaScript can throw: the loader tells a [Response] from an
    [Error] from the rest. *)
Inductive Thrown :=
| ThrownResponse (r : Response)
| ThrownError (e : Error)
| ThrownOther (v : OtherValue).

Record Environment := mkEnvironment {
  organizationId : string;
  projectId : string
}.

(** The [MetricsQuery] of the API module: [metrics] merged into the API
    parameters. *)
Record MetricsQuery := mkMetricsQuery {
  metrics : list string;
  params : Service.APIMetricQueryParams
}.

(** The result object of [createSearchParams]. *)
Inductive SearchParams :=
| Failure (error : string)
| Success (getAll : MetricsQuery).

Record LoaderFunctionArgs := mkArgs {
  request_url : string;
  route_params : list (string * string)
}.

Fixpoint route_param (key : string) (ps : list (string * string)) : option string :=
  match ps with
  | [] => None
  | (k, v) :: rest => if (k =? key)%string then Some v else route_param key rest
  end.

(** [MetricPresenter.call]: the presenter is a stub. *)
Definition MetricPresenter_call (organizationId projectId environmentId : string)
    (query : MetricsQuery) : Result Thrown (list unit) :=
  Ok [].

(** Modelled from the spec: [tryCatch] of the core package is not among
    the sources; it turns a rejection into the first component of an
    (error, result) pair. *)
Definition tryCatch {A} (r : Result Thrown A) : option Thrown * option A :=
  match r with
  | Ok a => (None, Some a)
  | Throw t => (Some t, None)
  end.

(** Truthiness of a caught value: responses and errors are objects. *)
Definition thrown_truthy (t : Thrown) : bool :=
  match t with
  | ThrownOther v => other_truthy v
  | _ => true
  end.

(** The text of [new Response(error.message, ...)] for a caught value; a
    [message] that is [undefined] makes an empty body. *)
Definition thrown_message (t : Thrown) : string :=
  match t with
  | ThrownError e => message e
  | ThrownOther v =>
      match other_message v with
      | Some m => m
      | None => ""
      end
  | ThrownResponse _ => ""
  end.

(** [json(result)]; the result is [null] after a rejection. *)
Definition json (result : option (list unit)) : Response :=
  mkResponse
    match result with
    | Some metrics => Json metrics
    | None => JsonNull
    end
    200.

Section Loader.

(** The services the loader calls, none of which is among the sources:
    the session check, the environment lookup on the replica, the
    search-parameter parser, and the message of the error zod raises on
    route parameters without an environment id. *)
Variable requireUserId : LoaderFunctionArgs -> Result Thrown string.
Variable findUnique : string -> string -> Result Thrown (option Environment).
Variable createSearchParams : string -> Result Thrown SearchParams.
Variable zod_message : string.

(** The presenter call is a parameter so that the error arm after
    [tryCatch] can be exercised; [loader] below uses the real stub. *)
Variable presenter : string -> string -> string -> MetricsQuery -> Result Thrown (list unit).

Definition ParamsSchema_parse (ps : list (string * string)) : Result Thrown string :=
  match route_param "environmentId" ps with
  | Some id => Ok id
  | None => Throw (ThrownError (mkError zod_message))
  end.

(** The body of the [try] block. *)
Definition loader_try (a : LoaderFunctionArgs) (userId environmentId : string)
    : Result Thrown Response :=
  environment <- findUnique environmentId userId ;;
  match environment with
  | None =>
      Throw (ThrownResponse (mkResponse
        (Text "This environment does not exist or you do not have permission to access it")
        200))
  | Some environment =>
      searchParams <- createSearchParams (request_url a) ;;
      match searchParams with
      | Failure error => Throw (ThrownResponse (mkResponse (Text error) 400))
      | Success query =>
          let (error, result) :=
            tryCatch (presenter (organizationId environment) (projectId environment)
                        environmentId query) in
          (* [if (error)]: a truthiness test on what was caught *)
          match error with
          | Some error =>
              if thrown_truthy error then
                Throw (ThrownResponse (mkResponse (Text (thrown_message error)) 500))
              else Ok (json result)
          | None => Ok (json result)
          end
      end
  end.

(** The [catch] block; the second component is what it logs, a message
    with the [error] field of its payload.  [JSON.stringify(error)] is
    evaluated first: when it throws, nothing is logged and its [TypeError]
    leaves the loader. *)
Definition loader_catch (error : Thrown)
    : Result Thrown Response * list (string * option string) :=
  match error with
  | ThrownResponse r => (Ok r, [])
  | ThrownError e => (Throw (ThrownResponse (mkResponse (Text (message e)) 500)), [])
  | ThrownOther v =>
      match other_json v with
      | JsonTypeError type_error => (Throw (ThrownError type_error), [])
      | JsonText text =>
          (Throw (ThrownResponse (mkResponse (Text "Unknown error") 500)),
           [("Unknown error", Some text)])
      | JsonUndefined =>
          (Throw (ThrownResponse (mkResponse (Text "Unknown error") 500)),
           [("Unknown error", None)])
      end
  end.

Definition loader_with (a : LoaderFunctionArgs)
    : Result Thrown Response * list (string * option string) :=
  match requireUserId a with
  | Throw t => (Throw t, [])
  | Ok userId =>
      match ParamsSchema_parse (route_params a) with
      | Throw t => (Throw t, [])
      | Ok environmentId =>
          match loader_try a userId environmentId with
          | Ok r => (Ok r, [])
          | Throw error => loader_catch error
          end
      end
  end.

End Loader.

(** The route's [loader]. *)
Definition loader requireUserId findUnique createSearchParams zod_message :=
  loader_with requireUserId findUnique createSearchParams zod_message MetricPresenter_call.

(** The response a loader hands to the framework, returned or thrown. *)
Definition response_of (outcome : Result Thrown Response) : option Response :=
  match outcome with
  | Ok r => Some r
  | Throw (ThrownResponse r) => Some r
  | Throw _ => None
  end.

End Route.

(** ** Sample inputs, after the repository's usage examples *)

Module Examples.
Import Js Metrics.

Definition sample (granularity : string) (endTime : option StringOrNumber)
    (filters : option Filters) (groupBy : option string) (rollup : option Rollup)
    : MetricQueryParams :=
  mkMetricQueryParams "org_123" "proj_456" "env_789" (Num 1704067200)
    endTime granularity filters groupBy rollup.

(** Average duration in 15-minute granularity, no explicit grouping. *)
Definition avg_duration_15m : MetricQueryParams :=
  sample "15m" None None None (Some (mkRollup Ravg "usage_duration_ms")).

(** A granularity outside the grammar. *)
Definition fortnightly : MetricQueryParams :=
  sample "fortnight" None None None (Some (mkRollup Rcount "*")).

(** A rollup over the empty column name. *)
Definition sum_of_nothing : MetricQueryParams :=
  sample "1h" None None None (Some (mkRollup Rsum "")).

(** The same, as the untyped object handed to the schema. *)
Definition sum_of_nothing_raw : Schema.JsValue :=
  Schema.VObj
    [ ("organizationId", Schema.VStr "org_123");
      ("projectId", Schema.VStr "proj_456");
      ("environmentId", Schema.VStr "env_789");
      ("startTime", Schema.VNum 1704067200);
      ("granularity", Schema.VStr "1h");
      ("rollup", Schema.VObj [ ("type", Schema.VStr "sum"); ("column", Schema.VStr "") ]) ].

(** An end time at the epoch: present, and falsy. *)
Definition until_epoch : MetricQueryParams :=
  sample "1h" (Some (Num 0)) None None (Some (mkRollup Rcount "*")).

(** Every optional part present and truthy. *)
Definition fully_filtered : MetricQueryParams :=
  sample "1h" (Some (Num 1706745599))
    (Some (mkFilters (Some "my-task") (Some "COMPLETED_SUCCESSFULLY") (Some "task/my-task")))
    (Some "status") None.

(** An explicit, empty group-by and no rollup. *)
Definition grouped_by_nothing : MetricQueryParams :=
  sample "1h" None None (Some "") None.

(** The complex example of the repository: explicit grouping by task. *)
Definition grouped_by_task : MetricQueryParams :=
  sample "1h" (Some (Num 1706745599))
    (Some (mkFilters None (Some "COMPLETED_SUCCESSFULLY") (Some "task/important-queue")))
    (Some "task_identifier") (Some (mkRollup Ravg "usage_duration_ms")).

(** An empty group-by next to the plain count metric, and the queries the
    composer builds for some of the samples. *)
Definition fully_filtered_query : Builder unit :=
  addClauses fully_filtered (getTaskRunStatusMetrics tt None tt).

Definition grouped_by_task_query : Builder unit :=
  addClauses grouped_by_task
    (getDynamicMetricsQueryBuilder tt "1h" Ravg "usage_duration_ms" None tt).

Definition avg_duration_15m_query : Builder unit :=
  addClauses avg_duration_15m
    (getDynamicMetricsQueryBuilder tt "15m" Ravg "usage_duration_ms" None tt).

(** A request of a signed-in member for an environment that exists. *)
Definition metrics_request : Route.LoaderFunctionArgs :=
  Route.mkArgs "https://cloud.example/resources/environments/env_789/metrics?metrics="
    [("environmentId", "env_789")].

Definition signed_in (a : Route.LoaderFunctionArgs) : Result Route.Thrown string :=
  Ok "user_1".

Definition environment_found (environmentId userId : string)
    : Result Route.Thrown (option Route.Environment) :=
  Ok (Some (Route.mkEnvironment "org_123" "proj_456")).

Definition replica_down (environmentId userId : string)
    : Result Route.Thrown (option Route.Environment) :=
  Throw (Route.ThrownError (mkError "Can't reach database server")).

Definition malformed_search (url : string) : Result Route.Thrown Route.SearchParams :=
  Ok (Route.Failure "granularity: Required").

Definition api_without_rollup : Service.APIMetricQueryParams :=
  Service.mkAPIParams (Num 1704067200) None "1h" None None None.

(** A client whose queries return nothing. *)
Definition idle_client : Service.ClickHouse unit :=
  Service.mkClickHouse tt (fun _ => (None, None)).

(** Hourly average duration through the API, and a client whose queries
    fail. *)
Definition api_avg_duration : Service.APIMetricQueryParams :=
  Service.mkAPIParams (Num 1704067200) None "1h" None None
    (Some (mkRollup Ravg "usage_duration_ms")).

Definition failing_client : Service.ClickHouse unit :=
  Service.mkClickHouse tt (fun _ => (Some (mkError "Timeout exceeded"), None)).

Definition signed_out (a : Route.LoaderFunctionArgs) : Result Route.Thrown string :=
  Throw (Route.ThrownResponse (Route.mkResponse (Route.Text "/login") 302)).

Definition environment_missing (environmentId userId : string)
    : Result Route.Thrown (option Route.Environment) :=
  Ok None.



Definition well_formed_search (url : string) : Result Route.Thrown Route.SearchParams :=
  Ok (Route.Success (Route.mkMetricsQuery ["runs"] api_without_rollup)).

End Examples.

(** ** The zod schema of the API module *)

Module ApiSchema.
Import Js Metrics Schema.

(** The API-side [MetricQueryParams.safeParse]: the schema of the metrics
    module without the three tenant ids. *)
Definition parseAPIMetricQueryParams (v : JsValue) : option Service.APIMetricQueryParams :=
  match v with
  | VObj fs =>
      match z_string_or_number (get "startTime" fs),
            z_optional z_string_or_number (get "endTime" fs),
            z_string (get "granularity" fs),
            z_optional z_filters (get "filters" fs),
            z_optional z_string (get "groupBy" fs),
            z_optional z_rollup (get "rollup" fs) with
      | Some st, Some et, Some g, Some f, Some gb, Some r =>
          Some (Service.mkAPIParams st et g f gb r)
      | _, _, _, _, _, _ => None
      end
  | _ => None
  end.

End ApiSchema.

(** ** Observations on builders and parameters, used to state properties *)

Module Observe.
Import Js Metrics.

(** The parameter names a clause binds. *)
Definition clause_binding_names (c : Clause) : list string :=
  match c with
  | Where _ bindings => map fst bindings
  | _ => []
  end.

(** All parameter names bound on a builder, in call order. *)
Definition binding_names {R} (b : Builder R) : list string :=
  flat_map clause_binding_names (clauses b).

(** The same parameters with another granularity. *)
Definition with_granularity (g : string) (p : MetricQueryParams) : MetricQueryParams :=
  mkMetricQueryParams (organizationId p) (projectId p) (environmentId p)
    (startTime p) (endTime p) g (filters p) (groupBy p) (rollup p).

(** The rollup type of the same name as a custom aggregation. *)
Definition rollup_of_aggregation (a : Aggregation) : RollupType :=
  match a with
  | Acount => Rcount
  | Asum => Rsum
  | Aavg => Ravg
  | Amin => Rmin
  | Amax => Rmax
  end.

(** The queries a service run has executed. *)
Definition executed {R} (events : list (Service.Event R)) : list (Builder R) :=
  flat_map (fun e => match e with
                     | Service.Execute q => [q]
                     | Service.CreateQuery _ _ => []
                     end) events.

End Observe.

(** ** The clause sequence in the words of the specification

    These definitions follow the specification's description of the query
    composer, not the source; the theorems below compare them with
    [Metrics.createMetricsQuery]. *)

Module Expected.
Import Js Metrics.

Definition organization_filter (p : MetricQueryParams) : Clause :=
  Where "organization_id = {organizationId:String}" [("organizationId", Str (organizationId p))].

Definition project_filter (p : MetricQueryParams) : Clause :=
  Where "project_id = {projectId:String}" [("projectId", Str (projectId p))].

Definition environment_filter (p : MetricQueryParams) : Clause :=
  Where "environment_id = {environmentId:String}" [("environmentId", Str (environmentId p))].

Definition soft_delete_filter : Clause :=
  Where "_is_deleted = 0" [].

Definition start_time_filter (p : MetricQueryParams) : Clause :=
  Where "created_at >= toUnixTimestamp({startTime:DateTime64})" [("startTime", startTime p)].

Definition end_time_filter (t : StringOrNumber) : Clause :=
  Where "created_at <= toUnixTimestamp({endTime:DateTime64})" [("endTime", t)].

Definition task_filter (v : string) : Clause :=
  Where "task_identifier = {taskIdentifier:String}" [("taskIdentifier", Str v)].

Definition status_filter (v : string) : Clause :=
  Where "status = {status:String}" [("status", Str v)].

Definition queue_filter (v : string) : Clause :=
  Where "queue = {queue:String}" [("queue", Str v)].

Definition time_ordering : Clause :=
  OrderBy "timestamp ASC".

(** An optional clause: there when the value is present and truthy. *)
Definition when_truthy {A} (truthy : A -> bool) (clause : A -> Clause) (v : option A)
    : list Clause :=
  match v with
  | Some a => if truthy a then [clause a] else []
  | None => []
  end.

(** The filters, in the order the specification lists them. *)
Definition filter_clauses (p : MetricQueryParams) : list Clause :=
  [ organization_filter p; project_filter p; environment_filter p;
    soft_delete_filter; start_time_filter p ]
  ++ when_truthy truthy_value end_time_filter (endTime p)
  ++ when_truthy truthy_string task_filter (filter_field task_identifier p)
  ++ when_truthy truthy_string status_filter (filter_field status p)
  ++ when_truthy truthy_string queue_filter (filter_field queue p).

(** The group-by step of the composer as a list of clauses: the two tests
    of the source, on a group-by that is a string and on one that is
    [undefined]. *)
Definition grouping (p : MetricQueryParams) : list Clause :=
  match groupBy p with
  | Some g =>
      if truthy_string g && negb (g =? "task_identifier")%string then [GroupBy g]
      else if negb (truthy_string g) && negb (truthy_opt_object (rollup p))
           then [GroupBy "task_identifier"]
           else []
  | None =>
      if negb (truthy_opt_object (rollup p)) then [GroupBy "task_identifier"] else []
  end.

(** A group-by field that is absent or the empty string. *)
Definition no_grouping_requested (p : MetricQueryParams) : Prop :=
  groupBy p = None \/ groupBy p = Some EmptyString.

Definition is_group_by (c : Clause) : bool :=
  match c with
  | GroupBy _ => true
  | _ => false
  end.

(** The group-by clauses a builder has received. *)
Definition group_clauses {R} (b : Builder R) : list Clause :=
  filter is_group_by (clauses b).

(** Being a member of the union type of plain metric types, or the custom
    one with its description: the calls that pass the first half of the
    composer when there is no rollup. *)
Definition metric_selected (metricType : option MetricType) (customMetric : option CustomMetric)
    : Prop :=
  match metricType with
  | Some MTcustom => customMetric <> None
  | Some _ => True
  | None => False
  end.

End Expected.

(** * Properties *)

(** ** The matcher decides the grammar *)

Section Grammar.
Import Js Metrics.

Lemma unit_is_not_digit (c : ascii) : is_unit c = true -> is_digit c = false.
Proof.
  destruct c as [[] [] [] [] [] [] [] []]; cbn; intro H;
    first [ discriminate H | reflexivity ].
Qed.

Lemma Digits_nonempty (ds : string) : Digits ds -> ds <> EmptyString.
Proof. destruct 1; discriminate. Qed.

(** On a digit run followed by a non-digit, the greedy prefix is the run. *)
Lemma digits_prefix_run (ds : string) (u : ascii) (tl : string) :
  Digits ds -> is_digit u = false ->
  digits_prefix (ds ++ String u tl) = (ds, String u tl).
Proof.
  intros Hds Hu. induction Hds as [c Hc | c ds Hc Hds IH]; cbn.
  - rewrite Hc, Hu. reflexivity.
  - rewrite Hc, IH. reflexivity.
Qed.

(** The greedy prefix splits the string and is empty or a digit run. *)
Lemma digits_prefix_split (s ds tl : string) :
  digits_prefix s = (ds, tl) ->
  s = ds ++ tl /\ (ds = EmptyString \/ Digits ds).
Proof.
  revert ds tl. induction s as [| c s IH]; cbn; intros ds tl H.
  - inversion H; subst. split; [reflexivity | left; reflexivity].
  - destruct (is_digit c) eqn:Hc.
    + destruct (digits_prefix s) as [ds' tl'] eqn:Hs.
      inversion H; subst; clear H.
      destruct (IH ds' tl eq_refl) as [Heq Hd]. split.
      * cbn. now rewrite <- Heq.
      * right. destruct Hd as [-> | Hd]; [now apply Digits_one | now apply Digits_more].
    + inversion H; subst. split; [reflexivity | left; reflexivity].
Qed.

Lemma match_granularity_complete (amount : string) (unit : ascii) :
  Digits amount -> is_unit unit = true ->
  match_granularity (amount ++ String unit EmptyString) = Some (amount, unit).
Proof.
  intros Hd Hu. unfold match_granularity.
  rewrite (digits_prefix_run amount unit EmptyString Hd (unit_is_not_digit unit Hu)).
  destruct amount as [| c ds]; [now apply Digits_nonempty in Hd |].
  now rewrite Hu.
Qed.

Lemma match_granularity_sound (g amount : string) (unit : ascii) :
  match_granularity g = Some (amount, unit) ->
  g = amount ++ String unit EmptyString /\ Digits amount /\ is_unit unit = true.
Proof.
  unfold match_granularity.
  destruct (digits_prefix g) as [ds tl] eqn:Hp.
  destruct (digits_prefix_split g ds tl Hp) as [Heq Hd].
  destruct ds as [| c ds]; [discriminate |].
  destruct tl as [| u [| u' tl]]; try discriminate.
  destruct (is_unit u) eqn:Hu; [| discriminate].
  intro H; inversion H; subst; clear H.
  repeat split; try assumption.
  destruct Hd as [Hd | Hd]; [discriminate | exact Hd].
Qed.

Lemma match_granularity_None (g : string) :
  ~ in_grammar g <-> match_granularity g = None.
Proof.
  split.
  - intro Hn. destruct (match_granularity g) as [[amount unit] |] eqn:Hm; [| reflexivity].
    exfalso. apply Hn. exists amount, unit. now apply match_granularity_sound.
  - intros Hm (amount & unit & -> & Hd & Hu).
    rewrite (match_granularity_complete amount unit Hd Hu) in Hm. discriminate.
Qed.

End Grammar.

(** ** Granularity and time buckets *)

Section Buckets.
Import Js Metrics.

(** Claim C2.  On a granularity of the grammar the bucket expression is
    decided by the unit letter: [s] and [m] give the minute truncation,
    [h] the hour truncation, [d] the day bucket, whatever the amount. *)
Theorem bucket_depends_on_unit_only (amount : string) (unit : ascii) :
  Digits amount -> is_unit unit = true ->
  let g := amount ++ String unit EmptyString in
  (unit = "s"%char \/ unit = "m"%char -> getTimeBucketFunction g = minute_bucket)
  /\ (unit = "h"%char -> getTimeBucketFunction g = hour_bucket)
  /\ (unit = "d"%char -> getTimeBucketFunction g = day_bucket)
  /\ (forall amount', Digits amount' ->
        getTimeBucketFunction (amount' ++ String unit EmptyString)
        = getTimeBucketFunction g).
Proof.
  intros Hd Hu g. subst g.
  assert (Hg : forall a, Digits a ->
            getTimeBucketFunction (a ++ String unit EmptyString)
            = if ((unit =? "s") || (unit =? "m"))%char then minute_bucket
              else if (unit =? "h")%char then hour_bucket
              else if (unit =? "d")%char then day_bucket
              else minute_bucket).
  { intros a Ha. unfold getTimeBucketFunction.
    now rewrite (match_granularity_complete a unit Ha Hu). }
  repeat split.
  - intros [-> | ->]; now rewrite (Hg amount Hd).
  - intros ->; now rewrite (Hg amount Hd).
  - intros ->; now rewrite (Hg amount Hd).
  - intros a Ha. now rewrite (Hg a Ha), (Hg amount Hd).
Qed.

Lemma bucket_depends_on_unit_only_witness :
  getTimeBucketFunction "15m" = minute_bucket
  /\ getTimeBucketFunction "90m" = getTimeBucketFunction "15m".
Proof.
  assert (D15 : Digits "15") by (apply Digits_more; [| apply Digits_one]; reflexivity).
  assert (D90 : Digits "90") by (apply Digits_more; [| apply Digits_one]; reflexivity).
  destruct (bucket_depends_on_unit_only "15" "m" D15 eq_refl) as (Hm & _ & _ & Hsame).
  split; [apply Hm; right; reflexivity | apply (Hsame "90" D90)].
Defined.

End Buckets.

(** ** Aggregation expressions *)

Section Aggregations.
Import Js Metrics.

Lemma append_cancel_l (s a b : string) : s ++ a = s ++ b -> a = b.
Proof.
  induction s as [| c s IH]; cbn; intro H; [exact H |].
  apply IH. now inversion H.
Qed.

(** Claim C3.  [buildAggregationExpression] maps count over "*" to
    [count()], count over any other column [c] to [count(c)], sum, avg, min
    and max to the aggregate of the same name over [c], and distinct to
    [uniq(c)]. *)
Theorem buildAggregationExpression_table (c : string) :
  buildAggregationExpression Rcount "*" = "count()"
  /\ (c <> "*" -> buildAggregationExpression Rcount c = "count(" ++ c ++ ")")
  /\ buildAggregationExpression Rsum c = "sum(" ++ c ++ ")"
  /\ buildAggregationExpression Ravg c = "avg(" ++ c ++ ")"
  /\ buildAggregationExpression Rmin c = "min(" ++ c ++ ")"
  /\ buildAggregationExpression Rmax c = "max(" ++ c ++ ")"
  /\ buildAggregationExpression Rdistinct c = "uniq(" ++ c ++ ")".
Proof.
  repeat split.
  intro Hc. unfold buildAggregationExpression.
  apply String.eqb_neq in Hc. now rewrite Hc.
Qed.

Lemma buildAggregationExpression_table_witness :
  buildAggregationExpression Rcount "run_id" = "count(run_id)".
Proof.
  destruct (buildAggregationExpression_table "run_id") as (_ & H & _).
  apply H. discriminate.
Defined.

(** Claim C10.  [getCustomMetrics] appends "WHERE <column> > 0" to its base
    query exactly when the aggregation is sum, avg, min or max; for count
    the base query is left without a filter. *)
Theorem custom_metrics_filter (R : Type) (ch : R) (metric : string)
    (a : Aggregation) (col : string) (s : option ClickHouseSettings) :
  let q := baseQuery (args (getCustomMetrics ch metric a col s tt)) in
  (q = customBaseQuery a col ++ "WHERE " ++ col ++ " > 0"
   <-> a = Asum \/ a = Aavg \/ a = Amin \/ a = Amax)
  /\ (a = Acount -> q = customBaseQuery a col).
Proof.
  cbn [getCustomMetrics queryBuilder args baseQuery]. split; [split |].
  - intro H. apply append_cancel_l in H.
    destruct a; cbn in H; [discriminate H | tauto ..].
  - intros [-> | [-> | [-> | ->]]]; reflexivity.
  - intros ->. cbn [customWhereClause].
    generalize (customBaseQuery Acount col). intro b.
    induction b as [| x b IH]; cbn; [reflexivity | now rewrite IH].
Qed.

Lemma custom_metrics_filter_witness :
  baseQuery (args (getCustomMetrics tt "custom" Acount "cost_in_cents" None tt))
  = customBaseQuery Acount "cost_in_cents".
Proof.
  destruct (custom_metrics_filter unit tt "custom" Acount "cost_in_cents" None) as [_ H].
  apply H. reflexivity.
Defined.

End Aggregations.

(** ** The query composer *)

Section Composer.
Import Js Metrics Expected.

Context {R : Type}.

Lemma clauses_chain (c : Clause) (b : Builder R) :
  clauses (chain c b) = (clauses b ++ [c])%list.
Proof. reflexivity. Qed.

(** Every factory hands out a builder without clauses. *)
Lemma selected_builder_is_fresh (ch : R) p mt cm qb :
  selectQueryBuilder ch p mt cm = Ok qb -> clauses (qb tt) = [].
Proof.
  unfold selectQueryBuilder.
  destruct (rollup p) as [r |].
  - intro H; inversion H; reflexivity.
  - destruct mt as [[] |]; [| | | | | discriminate];
      try (intro H; inversion H; reflexivity).
    destruct cm as [cm |]; intro H; inversion H; reflexivity.
Qed.

Lemma args_chain (c : Clause) (b : Builder R) : args (chain c b) = args b.
Proof. reflexivity. Qed.

(** An optional filter adds its clause when the value is truthy. *)
Lemma optional_filter_clauses {A} (truthy : A -> bool) (mk : A -> Clause)
    (o : option A) (b : Builder R) :
  clauses (match o with
           | Some a => if truthy a then chain (mk a) b else b
           | None => b
           end)
  = (clauses b ++ when_truthy truthy mk o)%list.
Proof.
  unfold when_truthy. destruct o as [a |]; [destruct (truthy a) |];
    cbn; now rewrite ?app_nil_r.
Qed.

Lemma addGrouping_clauses (p : MetricQueryParams) (b : Builder R) :
  clauses (addGrouping p b) = (clauses b ++ grouping p)%list.
Proof.
  unfold addGrouping, grouping, groupBy_.
  destruct (groupBy p) as [g |];
    [destruct (truthy_string g); destruct (g =? "task_identifier")%string |];
    destruct (truthy_opt_object (rollup p));
    cbn; now rewrite ?app_nil_r.
Qed.

Lemma addClauses_clauses (p : MetricQueryParams) (b : Builder R) :
  clauses (addClauses p b)
  = (clauses b ++ filter_clauses p ++ grouping p ++ [time_ordering])%list.
Proof.
  unfold addClauses, orderBy_. cbv zeta.
  rewrite clauses_chain, addGrouping_clauses.
  unfold addQueueFilter, addStatusFilter, addTaskFilter, addEndTimeFilter, where_.
  rewrite !optional_filter_clauses.
  unfold addStandardFilters, where_, filter_clauses.
  rewrite !clauses_chain, <- !app_assoc. reflexivity.
Qed.

Lemma addClauses_args (p : MetricQueryParams) (b : Builder R) :
  args (addClauses p b) = args b.
Proof.
  unfold addClauses, orderBy_. cbv zeta. rewrite args_chain.
  assert (Hopt : forall A (truthy : A -> bool) (mk : A -> Clause) (o : option A)
                        (b0 : Builder R),
             args (match o with
                   | Some a => if truthy a then chain (mk a) b0 else b0
                   | None => b0
                   end) = args b0).
  { intros A truthy mk o b0. destruct o as [a |]; [destruct (truthy a) |]; reflexivity. }
  assert (Hg : forall b0 : Builder R, args (addGrouping p b0) = args b0).
  { intro b0. unfold addGrouping, groupBy_.
    destruct (groupBy p) as [g |];
      [destruct (truthy_string g); destruct (g =? "task_identifier")%string |];
      destruct (truthy_opt_object (rollup p)); reflexivity. }
  rewrite Hg.
  unfold addQueueFilter, addStatusFilter, addTaskFilter, addEndTimeFilter, where_.
  rewrite !Hopt. reflexivity.
Qed.

Lemma createMetricsQuery_clauses (ch : R) p mt cm b :
  createMetricsQuery ch p mt cm = Ok b ->
  clauses b = (filter_clauses p ++ grouping p ++ [time_ordering])%list.
Proof.
  unfold createMetricsQuery.
  destruct (selectQueryBuilder ch p mt cm) as [qb |] eqn:Hs; [| discriminate].
  cbn [bind]. intro H; inversion H; subst; clear H.
  rewrite addClauses_clauses, (selected_builder_is_fresh ch p mt cm qb Hs).
  reflexivity.
Qed.

(** When the composer returns a builder at all. *)
Lemma createMetricsQuery_returns (ch : R) p mt cm :
  (exists b, createMetricsQuery ch p mt cm = Ok b)
  <-> rollup p <> None \/ metric_selected mt cm.
Proof.
  unfold createMetricsQuery, selectQueryBuilder, metric_selected.
  destruct (rollup p) as [r |].
  - split; [left; discriminate | intros _; eexists; reflexivity].
  - destruct mt as [[] |]; cbn [bind];
      try (split; [intros _; right; exact I | intros _; eexists; reflexivity]).
    + destruct cm as [cm |]; cbn [bind].
      * split; [intros _; right; discriminate | intros _; eexists; reflexivity].
      * split; [intros [b Hb]; discriminate Hb | intros [H | H]; congruence].
    + split; [intros [b Hb]; discriminate Hb | intros [H | []]; congruence].
Qed.

(** The composer has two errors of its own, and neither is the
    InvalidGranularity one. *)
Lemma createMetricsQuery_throws (ch : R) p mt cm e :
  createMetricsQuery ch p mt cm = Throw e ->
  e = mkError "customMetric is required for custom metric type"
  \/ e = mkError "Either metricType or rollup must be specified".
Proof.
  unfold createMetricsQuery, selectQueryBuilder.
  destruct (rollup p) as [r |]; [discriminate |].
  destruct mt as [[] |]; cbn [bind]; try discriminate.
  - destruct cm as [cm |]; cbn [bind]; [discriminate |].
    intro H; inversion H; now left.
  - intro H; inversion H; now right.
Qed.

Lemma filter_clauses_no_group (p : MetricQueryParams) :
  filter is_group_by (filter_clauses p) = [].
Proof.
  unfold filter_clauses, when_truthy.
  destruct (endTime p) as [t |]; [destruct (truthy_value t) |];
  (destruct (filter_field task_identifier p) as [ti |]; [destruct (truthy_string ti) |]);
  (destruct (filter_field status p) as [st |]; [destruct (truthy_string st) |]);
  (destruct (filter_field queue p) as [qu |]; [destruct (truthy_string qu) |]);
  reflexivity.
Qed.

Lemma grouping_is_group (p : MetricQueryParams) :
  filter is_group_by (grouping p) = grouping p.
Proof.
  unfold grouping.
  destruct (groupBy p) as [g |];
    [destruct (truthy_string g); destruct (g =? "task_identifier")%string |];
    destruct (truthy_opt_object (rollup p)); reflexivity.
Qed.

Lemma createMetricsQuery_groups (ch : R) p mt cm b :
  createMetricsQuery ch p mt cm = Ok b -> group_clauses b = grouping p.
Proof.
  intro H. unfold group_clauses.
  rewrite (createMetricsQuery_clauses ch p mt cm b H), !filter_app.
  rewrite filter_clauses_no_group, grouping_is_group. cbn. apply app_nil_r.
Qed.

Lemma in_group_clauses (b : Builder R) (g : string) :
  In (GroupBy g) (clauses b) <-> In (GroupBy g) (group_clauses b).
Proof.
  unfold group_clauses. rewrite filter_In. cbn. tauto.
Qed.

End Composer.

(** ** Granularities outside the grammar *)

Section GranularityClaims.
Import Js Metrics.

(** Claim C1, as amended.  For every granularity string outside the
    grammar, [granularityToInterval] fails with the InvalidGranularity
    error; constructing a metrics query does not: the dynamic builder
    treats the string like "1m" (minute truncation), [createMetricsQuery]
    with a rollup returns a builder, and no call of [createMetricsQuery]
    throws the InvalidGranularity error. *)
Theorem invalid_granularity_falls_back (g : string) :
  ~ in_grammar g ->
  granularityToInterval g = Throw (InvalidGranularity g)
  /\ getTimeBucketFunction g = minute_bucket
  /\ (forall (R : Type) (ch : R) t c s,
        baseQuery (args (getDynamicMetricsQueryBuilder ch g t c s tt))
        = baseQuery (args (getDynamicMetricsQueryBuilder ch "1m" t c s tt)))
  /\ (forall (R : Type) (ch : R) p mt cm,
        granularity p = g -> rollup p <> None ->
        exists b, createMetricsQuery ch p mt cm = Ok b)
  /\ (forall (R : Type) (ch : R) p mt cm,
        granularity p = g ->
        createMetricsQuery ch p mt cm <> Throw (InvalidGranularity g)).
Proof.
  intro Hg. apply match_granularity_None in Hg.
  assert (Hb : getTimeBucketFunction g = minute_bucket)
    by (unfold getTimeBucketFunction; now rewrite Hg).
  repeat split.
  - unfold granularityToInterval. now rewrite Hg.
  - exact Hb.
  - intros R ch t c s. cbn [getDynamicMetricsQueryBuilder queryBuilder args baseQuery].
    now rewrite Hb.
  - intros R ch p mt cm _ Hr. unfold createMetricsQuery, selectQueryBuilder.
    destruct (rollup p) as [r |]; [| congruence].
    cbn [bind]. eexists. reflexivity.
  - intros R ch p mt cm _ Ht.
    destruct (createMetricsQuery_throws ch p mt cm _ Ht) as [He | He];
      discriminate He.
Qed.

Lemma invalid_granularity_falls_back_witness :
  granularityToInterval "fortnight" = Throw (InvalidGranularity "fortnight")
  /\ getTimeBucketFunction "fortnight" = minute_bucket
  /\ exists b, createMetricsQuery tt Examples.fortnightly None None = Ok b.
Proof.
  assert (Hg : ~ in_grammar "fortnight") by (apply match_granularity_None; reflexivity).
  destruct (invalid_granularity_falls_back "fortnight" Hg) as (H1 & H2 & _ & H4 & _).
  split; [exact H1 | split; [exact H2 |]].
  apply (H4 unit tt Examples.fortnightly None None); [reflexivity | discriminate].
Defined.

(** Claim C1, as stated, fails: "fortnight" is outside the grammar, yet
    [createMetricsQuery] returns a builder for it and throws nothing. *)
Lemma invalid_granularity_accepted :
  ~ in_grammar "fortnight"
  /\ (exists b, createMetricsQuery tt Examples.fortnightly None None = Ok b)
  /\ createMetricsQuery tt Examples.fortnightly None None
     <> Throw (InvalidGranularity "fortnight").
Proof.
  split; [apply match_granularity_None; reflexivity |].
  split; [eexists; reflexivity | discriminate].
Qed.

End GranularityClaims.

(** ** Claims on the query composer *)

Section ComposerClaims.
Import Js Metrics Expected.

(** Claim C4, as amended.  Whenever [createMetricsQuery] returns a builder,
    its clauses are, in this order: the organization, project and
    environment filters, the soft-delete filter, the start-time filter,
    the end-time filter if [endTime] is present and truthy (neither 0 nor
    the empty string), the task_identifier, status and queue filters (each
    only if present and non-empty), at most one group-by, and the
    ascending timestamp ordering.  Two runs on the same parameters give
    the same clause sequence. *)
Theorem clause_order (R : Type) (ch : R) (p : MetricQueryParams)
    (mt : option MetricType) (cm : option CustomMetric) (b : Builder R) :
  createMetricsQuery ch p mt cm = Ok b ->
  (exists group,
      (group = [] \/ exists g, group = [GroupBy g])
      /\ clauses b = (filter_clauses p ++ group ++ [time_ordering])%list)
  /\ (forall b', createMetricsQuery ch p mt cm = Ok b' -> clauses b' = clauses b).
Proof.
  intro H. split.
  - exists (grouping p). split; [| now apply createMetricsQuery_clauses with ch mt cm].
    unfold grouping.
    destruct (groupBy p) as [g |];
      [destruct (truthy_string g); destruct (g =? "task_identifier")%string |];
      destruct (truthy_opt_object (rollup p)); cbn; eauto.
  - intros b' H'. rewrite H in H'. now inversion H'.
Qed.

Lemma clause_order_witness :
  createMetricsQuery tt Examples.fully_filtered (Some MTstatus) None
  = Ok Examples.fully_filtered_query
  /\ exists group,
      (group = [] \/ exists g, group = [GroupBy g])
      /\ clauses Examples.fully_filtered_query
         = (filter_clauses Examples.fully_filtered ++ group ++ [time_ordering])%list.
Proof.
  split; [reflexivity |].
  apply (clause_order unit tt Examples.fully_filtered (Some MTstatus) None
           Examples.fully_filtered_query eq_refl).
Defined.

(** Claim C4, as stated, fails: an end time of 0 is present, yet the
    composed query has no end-time filter. *)
Lemma end_time_at_epoch_is_not_filtered :
  endTime Examples.until_epoch = Some (Num 0)
  /\ exists b,
      createMetricsQuery tt Examples.until_epoch None None = Ok b
      /\ clauses b
         = [ organization_filter Examples.until_epoch;
             project_filter Examples.until_epoch;
             environment_filter Examples.until_epoch;
             soft_delete_filter;
             start_time_filter Examples.until_epoch;
             time_ordering ]
      /\ ~ In (end_time_filter (Num 0)) (clauses b).
Proof.
  split; [reflexivity |]. eexists. split; [reflexivity |]. split; [reflexivity |].
  cbn. intros [H | [H | [H | [H | [H | [H | []]]]]]]; discriminate H.
Qed.

(** Claim C5, as amended.  [createMetricsQuery] adds the default
    task_identifier grouping exactly when the parameters have no rollup
    and their group-by is absent or the empty string.  With the rollup
    (avg, usage_duration_ms), granularity "15m" and no group-by, the query
    has no group-by clause, ends with the ascending ordering on
    [timestamp], and [timestamp] is the minute bucket. *)
Theorem default_grouping (R : Type) (ch : R) (p : MetricQueryParams)
    (mt : option MetricType) (cm : option CustomMetric) (b : Builder R) :
  createMetricsQuery ch p mt cm = Ok b ->
  (In (GroupBy "task_identifier") (clauses b)
   <-> rollup p = None /\ no_grouping_requested p)
  /\ (rollup p = Some (mkRollup Ravg "usage_duration_ms") ->
      granularity p = "15m" -> groupBy p = None ->
      (forall g, ~ In (GroupBy g) (clauses b))
      /\ clauses b = (filter_clauses p ++ [OrderBy "timestamp ASC"])%list
      /\ baseQuery (args b)
         = lines [ "";
                   "      SELECT";
                   "        toStartOfMinute(toDateTime(created_at)) as timestamp,";
                   "        avg(usage_duration_ms) as value";
                   "      FROM trigger_dev.task_runs_v2 FINAL";
                   "    " ]).
Proof.
  intro H.
  pose proof (createMetricsQuery_groups ch p mt cm b H) as Hg.
  pose proof (createMetricsQuery_clauses ch p mt cm b H) as Hc.
  split.
  - rewrite in_group_clauses, Hg. unfold grouping, no_grouping_requested.
    destruct (groupBy p) as [g |].
    + destruct g as [| c g]; cbn [truthy_string andb negb].
      * destruct (rollup p); cbn; split;
          try tauto; try (intros [Hr _]; discriminate Hr); auto.
      * destruct (String c g =? "task_identifier")%string eqn:He; cbn.
        -- split; [tauto | intros [_ [Hn | Hn]]; discriminate Hn].
        -- apply String.eqb_neq in He.
           split; [intros [Hi | []]; congruence
                  | intros [_ [Hn | Hn]]; discriminate Hn].
    + destruct (rollup p); cbn; split;
        try tauto; try (intros [Hr _]; discriminate Hr); auto.
  - intros Hr Hgr Hno.
    assert (Hnil : grouping p = []) by (unfold grouping; now rewrite Hno, Hr).
    split; [| split].
    + intros g Hin. apply in_group_clauses in Hin. now rewrite Hg, Hnil in Hin.
    + now rewrite Hc, Hnil.
    + unfold createMetricsQuery, selectQueryBuilder in H.
      rewrite Hr, Hgr in H. cbn [bind type column] in H.
      injection H as <-. rewrite addClauses_args. reflexivity.
Qed.

Lemma default_grouping_witness :
  createMetricsQuery tt Examples.avg_duration_15m None None
  = Ok Examples.avg_duration_15m_query
  /\ (forall g, ~ In (GroupBy g) (clauses Examples.avg_duration_15m_query))
  /\ clauses Examples.avg_duration_15m_query
     = (filter_clauses Examples.avg_duration_15m ++ [OrderBy "timestamp ASC"])%list.
Proof.
  split; [reflexivity |].
  destruct (default_grouping unit tt Examples.avg_duration_15m None None
              Examples.avg_duration_15m_query eq_refl) as [_ H].
  destruct (H eq_refl eq_refl eq_refl) as (H1 & H2 & _).
  split; [exact H1 | exact H2].
Defined.

(** Claim C5, as stated, fails: with an explicit group-by that is the
    empty string and no rollup, the default grouping is added all the
    same. *)
Lemma empty_group_by_gets_default_grouping :
  groupBy Examples.grouped_by_nothing = Some EmptyString
  /\ rollup Examples.grouped_by_nothing = None
  /\ exists b,
      createMetricsQuery tt Examples.grouped_by_nothing (Some MTcount) None = Ok b
      /\ In (GroupBy "task_identifier") (clauses b).
Proof.
  split; [reflexivity |]. split; [reflexivity |].
  eexists. split; [reflexivity |]. cbn. tauto.
Qed.

(** Claim C9.  When the group-by field is the string "task_identifier",
    the composed query has no group-by clause at all, with a rollup and
    without one. *)
Theorem explicit_task_grouping_is_dropped (R : Type) (ch : R) (p : MetricQueryParams)
    (mt : option MetricType) (cm : option CustomMetric) (b : Builder R) :
  groupBy p = Some "task_identifier" ->
  createMetricsQuery ch p mt cm = Ok b ->
  forall g, ~ In (GroupBy g) (clauses b).
Proof.
  intros Hg H g Hin. apply in_group_clauses in Hin.
  rewrite (createMetricsQuery_groups ch p mt cm b H) in Hin.
  unfold grouping in Hin. rewrite Hg in Hin. exact Hin.
Qed.

Lemma explicit_task_grouping_is_dropped_witness :
  (createMetricsQuery tt Examples.grouped_by_task None None
   = Ok Examples.grouped_by_task_query
   /\ forall g, ~ In (GroupBy g) (clauses Examples.grouped_by_task_query))
  /\ (forall b,
        createMetricsQuery tt
          (Examples.sample "1h" None None (Some "task_identifier") None)
          (Some MTcount) None = Ok b ->
        forall g, ~ In (GroupBy g) (clauses b)).
Proof.
  split; [split; [reflexivity |] |].
  - apply (explicit_task_grouping_is_dropped unit tt Examples.grouped_by_task None None
             Examples.grouped_by_task_query eq_refl eq_refl).
  - intros b Hb.
    apply (explicit_task_grouping_is_dropped unit tt
             (Examples.sample "1h" None None (Some "task_identifier") None)
             (Some MTcount) None b eq_refl Hb).
Defined.

End ComposerClaims.

(** ** Rollup validation and missing rollups *)

Section RollupClaims.
Import Js Metrics Expected.

(** Claim C6, as amended.  For every accepted [MetricQueryParams] with a
    rollup, the rollup column is any string, the empty one included: the
    schema accepts the rollup object whatever its column, and the composer
    returns a builder whose value expression is the aggregate over that
    column text. *)
Theorem rollup_column_is_unconstrained (R : Type) (ch : R) (p : MetricQueryParams)
    (mt : option MetricType) (cm : option CustomMetric) (r : Rollup) :
  rollup p = Some r ->
  Schema.z_rollup
    (Schema.VObj [ ("type", Schema.VStr (rollup_name (type r)));
                   ("column", Schema.VStr (column r)) ]) = Some r
  /\ exists b,
      createMetricsQuery ch p mt cm = Ok b
      /\ baseQuery (args b)
         = lines [ "";
                   "      SELECT";
                   "        " ++ getTimeBucketFunction (granularity p) ++ " as timestamp,";
                   "        " ++ buildAggregationExpression (type r) (column r) ++ " as value";
                   "      FROM trigger_dev.task_runs_v2 FINAL";
                   "    " ].
Proof.
  intro Hr. split.
  - destruct r as [t c]. destruct t; reflexivity.
  - unfold createMetricsQuery, selectQueryBuilder. rewrite Hr. cbn [bind].
    eexists. split; [reflexivity |]. rewrite addClauses_args. reflexivity.
Qed.

Lemma rollup_column_is_unconstrained_witness :
  rollup Examples.sum_of_nothing = Some (mkRollup Rsum "")
  /\ exists b,
      createMetricsQuery tt Examples.sum_of_nothing None None = Ok b
      /\ baseQuery (args b)
         = lines [ "";
                   "      SELECT";
                   "        toStartOfHour(toDateTime(created_at)) as timestamp,";
                   "        sum() as value";
                   "      FROM trigger_dev.task_runs_v2 FINAL";
                   "    " ].
Proof.
  split; [reflexivity |].
  exact (proj2 (rollup_column_is_unconstrained unit tt Examples.sum_of_nothing None None
                  (mkRollup Rsum "") eq_refl)).
Defined.

(** Claim C6, as stated, fails: the schema accepts parameters whose rollup
    column is the empty string, and the composer returns a builder for
    them. *)
Lemma empty_rollup_column_accepted :
  Schema.parseMetricQueryParams Examples.sum_of_nothing_raw = Some Examples.sum_of_nothing
  /\ option_map column (rollup Examples.sum_of_nothing) = Some EmptyString
  /\ exists b, createMetricsQuery tt Examples.sum_of_nothing None None = Ok b.
Proof.
  split; [reflexivity |]. split; [reflexivity |]. eexists. reflexivity.
Qed.

(** Claim C7.  Without a rollup and without a metric type
    [createMetricsQuery] throws, and [getDynamicMetrics] on parameters
    without a rollup throws before it has asked the client for anything. *)
Theorem missing_rollup_throws (R : Type) (ch : R) (p : MetricQueryParams)
    (cm : option CustomMetric) (clickhouse : Service.ClickHouse R)
    (api : Service.APIMetricQueryParams) (organizationId projectId environmentId : string) :
  rollup p = None ->
  Service.rollup api = None ->
  createMetricsQuery ch p None cm
  = Throw (mkError "Either metricType or rollup must be specified")
  /\ Service.getDynamicMetrics clickhouse api organizationId projectId environmentId
     = ([], Throw (mkError "rollup parameter is required for dynamic metrics")).
Proof.
  intros Hp Ha. split.
  - unfold createMetricsQuery, selectQueryBuilder. now rewrite Hp.
  - unfold Service.getDynamicMetrics. now rewrite Ha.
Qed.

Lemma missing_rollup_throws_witness :
  createMetricsQuery tt (Examples.sample "1h" None None None None) None None
  = Throw (mkError "Either metricType or rollup must be specified")
  /\ Service.getDynamicMetrics Examples.idle_client Examples.api_without_rollup
       "org_123" "proj_456" "env_789"
     = ([], Throw (mkError "rollup parameter is required for dynamic metrics")).
Proof.
  exact (missing_rollup_throws unit tt (Examples.sample "1h" None None None None) None
           Examples.idle_client Examples.api_without_rollup
           "org_123" "proj_456" "env_789" eq_refl eq_refl).
Defined.

End RollupClaims.

(** ** The metrics route *)

Section RouteClaims.
Import Js Route.

Variable requireUserId : LoaderFunctionArgs -> Result Thrown string.
Variable findUnique : string -> string -> Result Thrown (option Environment).
Variable createSearchParams : string -> Result Thrown SearchParams.
Variable zod_message : string.
Variable presenter : string -> string -> string -> MetricsQuery -> Result Thrown (list unit).

Let run := loader_with requireUserId findUnique createSearchParams zod_message presenter.

(** Claim C8, as amended.  For a request that has passed the session
    check and the route parameters, both of which run before the try
    block: an error thrown by the environment lookup, by the
    search-parameter parser or by the presenter ends in a response with
    status 500 that carries the error's message; any other truthy value
    the presenter rejects with ends in a 500 response carrying its
    message property; a thrown value that is neither an error nor a
    response, and that [JSON.stringify] can serialise, ends in a 500
    response with the text "Unknown error"; and, once the environment has
    been found, search parameters that fail the schema end in a response
    with status 400. *)
Theorem loader_error_responses (a : LoaderFunctionArgs) (userId environmentId : string) :
  requireUserId a = Ok userId ->
  route_param "environmentId" (route_params a) = Some environmentId ->
  let response := response_of (fst (run a)) in
  (forall e, findUnique environmentId userId = Throw (ThrownError e) ->
     response = Some (mkResponse (Text (message e)) 500))
  /\ (forall env e, findUnique environmentId userId = Ok (Some env) ->
        createSearchParams (request_url a) = Throw (ThrownError e) ->
        response = Some (mkResponse (Text (message e)) 500))
  /\ (forall env query e, findUnique environmentId userId = Ok (Some env) ->
        createSearchParams (request_url a) = Ok (Success query) ->
        presenter (organizationId env) (projectId env) environmentId query
        = Throw (ThrownError e) ->
        response = Some (mkResponse (Text (message e)) 500))
  /\ (forall env query t, findUnique environmentId userId = Ok (Some env) ->
        createSearchParams (request_url a) = Ok (Success query) ->
        presenter (organizationId env) (projectId env) environmentId query = Throw t ->
        thrown_truthy t = true ->
        response = Some (mkResponse (Text (thrown_message t)) 500))
  /\ (forall v, findUnique environmentId userId = Throw (ThrownOther v) ->
        (forall type_error, other_json v <> JsonTypeError type_error) ->
        response = Some (mkResponse (Text "Unknown error") 500))
  /\ (forall env v, findUnique environmentId userId = Ok (Some env) ->
        createSearchParams (request_url a) = Throw (ThrownOther v) ->
        (forall type_error, other_json v <> JsonTypeError type_error) ->
        response = Some (mkResponse (Text "Unknown error") 500))
  /\ (forall env error, findUnique environmentId userId = Ok (Some env) ->
        createSearchParams (request_url a) = Ok (Failure error) ->
        response = Some (mkResponse (Text error) 400)).
Proof.
  intros Hu Hp. unfold run, loader_with, ParamsSchema_parse.
  rewrite Hu, Hp. unfold loader_try. cbn zeta.
  repeat split.
  - intros e Hf. now rewrite Hf.
  - intros env e Hf Hs. now rewrite Hf, Hs.
  - intros env query e Hf Hs Hq. rewrite Hf. cbn [bind]. rewrite Hs. cbn [bind].
    now rewrite Hq.
  - intros env query t Hf Hs Hq Ht. rewrite Hf. cbn [bind]. rewrite Hs. cbn [bind].
    rewrite Hq. cbn [tryCatch]. now rewrite Ht.
  - intros v Hf Hv. rewrite Hf. cbn [bind loader_catch].
    destruct (other_json v) as [text | | type_error]; [reflexivity .. |].
    now destruct (Hv type_error).
  - intros env v Hf Hs Hv. rewrite Hf. cbn [bind]. rewrite Hs. cbn [bind loader_catch].
    destruct (other_json v) as [text | | type_error]; [reflexivity .. |].
    now destruct (Hv type_error).
  - intros env error Hf Hs. now rewrite Hf, Hs.
Qed.

End RouteClaims.

Lemma loader_error_responses_witness :
  Route.response_of
    (fst (Route.loader Examples.signed_in Examples.environment_found
            Examples.malformed_search "Required" Examples.metrics_request))
  = Some (Route.mkResponse (Route.Text "granularity: Required") 400)
  /\ Route.response_of
       (fst (Route.loader Examples.signed_in Examples.replica_down
               Examples.malformed_search "Required" Examples.metrics_request))
     = Some (Route.mkResponse (Route.Text "Can't reach database server") 500).
Proof.
  split.
  - destruct (loader_error_responses Examples.signed_in Examples.environment_found
                Examples.malformed_search "Required" Route.MetricPresenter_call
                Examples.metrics_request "user_1" "env_789" eq_refl eq_refl)
      as (_ & _ & _ & _ & _ & _ & H).
    exact (H (Route.mkEnvironment "org_123" "proj_456") "granularity: Required"
             eq_refl eq_refl).
  - destruct (loader_error_responses Examples.signed_in Examples.replica_down
                Examples.malformed_search "Required" Route.MetricPresenter_call
                Examples.metrics_request "user_1" "env_789" eq_refl eq_refl)
      as (H & _).
    exact (H (Js.mkError "Can't reach database server") eq_refl).
Defined.

(** Claim C8, as stated, fails.  The zod error for route parameters
    without an environment id is thrown before the try block and leaves
    the loader as it is, with no response built; and a request with
    malformed search parameters for an environment the lookup does not
    find is answered with status 200, not 400. *)
Lemma loader_errors_outside_the_claim :
  (Route.loader Examples.signed_in Examples.environment_found Examples.well_formed_search
     "Required" (Route.mkArgs "https://cloud.example/metrics" [])
   = (Js.Throw (Route.ThrownError (Js.mkError "Required")), [])
   /\ Route.response_of
        (fst (Route.loader Examples.signed_in Examples.environment_found
                Examples.well_formed_search "Required"
                (Route.mkArgs "https://cloud.example/metrics" []))) = None)
  /\ (Examples.malformed_search (Route.request_url Examples.metrics_request)
      = Js.Ok (Route.Failure "granularity: Required")
      /\ Route.response_of
           (fst (Route.loader Examples.signed_in Examples.environment_missing
                   Examples.malformed_search "Required" Examples.metrics_request))
         = Some (Route.mkResponse
                   (Route.Text
                      "This environment does not exist or you do not have permission to access it")
                   200)).
Proof.
  split; split; reflexivity.
Qed.

(** * Further properties of the code *)

(** ** Granularity parsing *)

Section GranularityFacts.
Import Js Metrics.

Lemma unit_cases (c : ascii) :
  is_unit c = true -> c = "s"%char \/ c = "m"%char \/ c = "h"%char \/ c = "d"%char.
Proof.
  destruct c as [[] [] [] [] [] [] [] []]; cbn; intro H;
    first [ discriminate H | tauto ].
Qed.

Lemma append_unit_inj (a a' : string) (u u' : ascii) :
  a ++ String u EmptyString = a' ++ String u' EmptyString -> a = a' /\ u = u'.
Proof.
  revert a'. induction a as [| c a IH]; intros [| c' a'] H; cbn in H.
  - now inversion H.
  - inversion H as [[Hc Hr]]. destruct a'; discriminate Hr.
  - inversion H as [[Hc Hr]]. destruct a; discriminate Hr.
  - inversion H as [[Hc Hr]]. destruct (IH a' Hr) as [-> ->]. now split.
Qed.

(** X1.  [granularityToInterval] returns exactly on the strings of the
    grammar, and what it returns is the amount, a space and the unit word:
    SECOND for s, MINUTE for m, HOUR for h, DAY for d. *)
Theorem granularityToInterval_result (g r : string) :
  granularityToInterval g = Ok r
  <-> exists amount unit word,
        g = amount ++ String unit EmptyString
        /\ Digits amount
        /\ r = amount ++ " " ++ word
        /\ ((unit = "s"%char /\ word = "SECOND")
            \/ (unit = "m"%char /\ word = "MINUTE")
            \/ (unit = "h"%char /\ word = "HOUR")
            \/ (unit = "d"%char /\ word = "DAY")).
Proof.
  unfold granularityToInterval. split.
  - destruct (match_granularity g) as [[amount unit] |] eqn:Hm; [| discriminate].
    intro H; inversion H; subst; clear H.
    destruct (match_granularity_sound g amount unit Hm) as (Hg & Hd & Hu).
    exists amount, unit, (unitMap unit). repeat split; try assumption.
    destruct (unit_cases unit Hu) as [-> | [-> | [-> | ->]]]; cbn; tauto.
  - intros (amount & unit & word & -> & Hd & -> & Hw).
    assert (Hu : is_unit unit = true)
      by (destruct Hw as [[-> _] | [[-> _] | [[-> _] | [-> _]]]]; reflexivity).
    rewrite (match_granularity_complete amount unit Hd Hu).
    destruct Hw as [[-> ->] | [[-> ->] | [[-> ->] | [-> ->]]]]; reflexivity.
Qed.

(** X2.  [getTimeBucketFunction] returns the hour bucket exactly on a run
    of digits followed by h, the day bucket exactly on a run of digits
    followed by d, and the minute bucket on every other string. *)
Theorem time_bucket_by_shape (g : string) :
  (getTimeBucketFunction g = hour_bucket
   <-> exists amount, Digits amount /\ g = amount ++ "h")
  /\ (getTimeBucketFunction g = day_bucket
      <-> exists amount, Digits amount /\ g = amount ++ "d")
  /\ ((forall amount, Digits amount -> g <> amount ++ "h" /\ g <> amount ++ "d")
      -> getTimeBucketFunction g = minute_bucket).
Proof.
  unfold getTimeBucketFunction.
  destruct (match_granularity g) as [[amount unit] |] eqn:Hm.
  - destruct (match_granularity_sound g amount unit Hm) as (-> & Hd & Hu).
    destruct (unit_cases unit Hu) as [-> | [-> | [-> | ->]]]; cbn;
      (split; [| split]);
      try (split; [discriminate |
                   intros (a & Ha & He); apply append_unit_inj in He;
                   destruct He as [_ He]; discriminate He]);
      try (split; [intros _; exists amount; now split | reflexivity]);
      try reflexivity;
      intro H; destruct (H amount Hd) as [H1 H2]; congruence.
  - split; [| split].
    + split; [discriminate |].
      intros (a & Ha & ->).
      rewrite (match_granularity_complete a "h" Ha eq_refl) in Hm. discriminate Hm.
    + split; [discriminate |].
      intros (a & Ha & ->).
      rewrite (match_granularity_complete a "d" Ha eq_refl) in Hm. discriminate Hm.
    + reflexivity.
Qed.

End GranularityFacts.

(** ** The composer's choice of builder *)

Section ComposerFacts.
Import Js Metrics Expected Observe.

(** X3.  A rollup takes precedence: when the parameters carry one, the
    metric type and the custom metric passed along are ignored. *)
Theorem rollup_overrides_metric_type {R : Type} (ch : R) (p : MetricQueryParams)
    (mt mt' : option MetricType) (cm cm' : option CustomMetric) :
  rollup p <> None ->
  createMetricsQuery ch p mt cm = createMetricsQuery ch p mt' cm'.
Proof.
  intro Hr. unfold createMetricsQuery, selectQueryBuilder.
  destruct (rollup p) as [r |]; [reflexivity | congruence].
Qed.

Lemma rollup_overrides_metric_type_witness :
  createMetricsQuery tt Examples.avg_duration_15m (Some MTcustom) None
  = createMetricsQuery tt Examples.avg_duration_15m None None.
Proof.
  apply (rollup_overrides_metric_type (R := unit)). discriminate.
Defined.

(** X4.  [createMetricsQuery] throws in two situations only, both without
    a rollup: no metric type at all, and the custom metric type without
    its description; each has its own message. *)
Theorem createMetricsQuery_errors {R : Type} (ch : R) (p : MetricQueryParams)
    (mt : option MetricType) (cm : option CustomMetric) (e : Error) :
  createMetricsQuery ch p mt cm = Throw e
  <-> rollup p = None
      /\ ((mt = None /\ e = mkError "Either metricType or rollup must be specified")
          \/ (mt = Some MTcustom /\ cm = None
              /\ e = mkError "customMetric is required for custom metric type")).
Proof.
  unfold createMetricsQuery, selectQueryBuilder. split.
  - destruct (rollup p) as [r |]; [discriminate |].
    destruct mt as [[] |]; cbn [bind]; try discriminate.
    + destruct cm as [cm |]; cbn [bind]; [discriminate |].
      intro H; inversion H. split; [reflexivity | right; repeat split].
    + intro H; inversion H. split; [reflexivity | left; split; reflexivity].
  - intros [-> [[-> ->] | (-> & -> & ->)]]; reflexivity.
Qed.

(** X5.  Without a rollup the granularity of the parameters plays no part:
    the predefined builders always bucket by minute, so changing the
    granularity changes nothing in what the composer returns. *)
Theorem granularity_ignored_without_rollup {R : Type} (ch : R) (p : MetricQueryParams)
    (mt : option MetricType) (cm : option CustomMetric) (g : string) :
  rollup p = None ->
  createMetricsQuery ch (with_granularity g p) mt cm = createMetricsQuery ch p mt cm.
Proof.
  intro Hr. destruct p as [o pr en st et g0 fs gb ro]. cbn in Hr. subst ro.
  destruct mt as [[] |]; [| | | | destruct cm as [cm |] |]; reflexivity.
Qed.

Lemma granularity_ignored_without_rollup_witness :
  createMetricsQuery tt (with_granularity "7d" Examples.grouped_by_nothing) (Some MTcost) None
  = createMetricsQuery tt Examples.grouped_by_nothing (Some MTcost) None.
Proof.
  apply (granularity_ignored_without_rollup (R := unit)). reflexivity.
Defined.

Lemma binding_names_app (l1 l2 : list Clause) :
  flat_map clause_binding_names (l1 ++ l2)
  = (flat_map clause_binding_names l1 ++ flat_map clause_binding_names l2)%list.
Proof. apply flat_map_app. Qed.

Lemma grouping_binds_nothing (p : MetricQueryParams) :
  flat_map clause_binding_names (grouping p) = [].
Proof.
  unfold grouping.
  destruct (groupBy p) as [g |];
    [destruct (truthy_string g); destruct (g =? "task_identifier")%string |];
    destruct (truthy_opt_object (rollup p)); reflexivity.
Qed.

(** X6.  No parameter name is bound twice on a composed query, so no
    filter value can overwrite another when the bindings are merged. *)
Theorem binding_names_distinct {R : Type} (ch : R) (p : MetricQueryParams)
    (mt : option MetricType) (cm : option CustomMetric) (b : Builder R) :
  createMetricsQuery ch p mt cm = Ok b -> NoDup (binding_names b).
Proof.
  intro H. unfold binding_names.
  rewrite (createMetricsQuery_clauses ch p mt cm b H), !binding_names_app.
  rewrite grouping_binds_nothing. cbn [flat_map clause_binding_names time_ordering app].
  rewrite app_nil_r. unfold filter_clauses, when_truthy.
  destruct (endTime p) as [t |]; [destruct (truthy_value t) |];
  (destruct (filter_field task_identifier p) as [ti |]; [destruct (truthy_string ti) |]);
  (destruct (filter_field status p) as [st |]; [destruct (truthy_string st) |]);
  (destruct (filter_field queue p) as [qu |]; [destruct (truthy_string qu) |]);
  cbn; repeat constructor; cbn; intuition discriminate.
Qed.

Lemma binding_names_distinct_witness :
  createMetricsQuery tt Examples.fully_filtered (Some MTstatus) None
  = Ok Examples.fully_filtered_query
  /\ NoDup (binding_names Examples.fully_filtered_query).
Proof.
  split; [reflexivity |].
  apply (binding_names_distinct (R := unit) tt Examples.fully_filtered (Some MTstatus) None
           Examples.fully_filtered_query eq_refl).
Defined.

End ComposerFacts.

(** ** Base queries *)

Section BaseQueryFacts.
Import Js Metrics Expected Observe.

Lemma string_app_assoc (a b c : string) : (a ++ b) ++ c = a ++ (b ++ c).
Proof. induction a as [| x a IH]; cbn; [reflexivity | now rewrite IH]. Qed.

Lemma filter_clauses_with_granularity (g : string) (p : MetricQueryParams) :
  filter_clauses (with_granularity g p) = filter_clauses p.
Proof. destruct p; reflexivity. Qed.

Lemma grouping_with_granularity (g : string) (p : MetricQueryParams) :
  grouping (with_granularity g p) = grouping p.
Proof. destruct p; reflexivity. Qed.

(** X7.  With a rollup, the amount of the granularity does not reach the
    SQL: two granularities of the grammar with the same unit letter give
    the same base query and the same clauses. *)
Theorem dynamic_query_ignores_amount {R : Type} (ch : R) (p : MetricQueryParams)
    (mt : option MetricType) (cm : option CustomMetric)
    (amount amount' : string) (unit : ascii) (b b' : Builder R) :
  rollup p <> None ->
  Digits amount -> Digits amount' -> is_unit unit = true ->
  createMetricsQuery ch (with_granularity (amount ++ String unit EmptyString) p) mt cm = Ok b ->
  createMetricsQuery ch (with_granularity (amount' ++ String unit EmptyString) p) mt cm = Ok b' ->
  baseQuery (args b) = baseQuery (args b') /\ clauses b = clauses b'.
Proof.
  intros Hr Ha Ha' Hu Hb Hb'. split.
  - unfold createMetricsQuery, selectQueryBuilder in Hb, Hb'.
    destruct p as [o pr en st et g0 fs gb [r |]]; [| exfalso; apply Hr; reflexivity].
    cbn [rollup with_granularity granularity bind] in Hb, Hb'.
    injection Hb as <-. injection Hb' as <-.
    rewrite !addClauses_args.
    cbn [getDynamicMetricsQueryBuilder queryBuilder args baseQuery].
    unfold getTimeBucketFunction.
    now rewrite (match_granularity_complete amount unit Ha Hu),
                (match_granularity_complete amount' unit Ha' Hu).
  - rewrite (createMetricsQuery_clauses ch _ mt cm b Hb),
            (createMetricsQuery_clauses ch _ mt cm b' Hb').
    now rewrite !filter_clauses_with_granularity, !grouping_with_granularity.
Qed.

Lemma dynamic_query_ignores_amount_witness :
  exists b b',
    createMetricsQuery tt (with_granularity "5m" Examples.avg_duration_15m) None None = Ok b
    /\ createMetricsQuery tt (with_granularity "1m" Examples.avg_duration_15m) None None = Ok b'
    /\ baseQuery (args b) = baseQuery (args b') /\ clauses b = clauses b'.
Proof.
  eexists. eexists. split; [reflexivity |]. split; [reflexivity |].
  apply (dynamic_query_ignores_amount tt Examples.avg_duration_15m None None "5" "1" "m");
    try reflexivity; try discriminate; apply Digits_one; reflexivity.
Defined.

(** X8.  The custom builder and the dynamic builder write the same value
    expression for the same aggregation and column, except for count over
    "*": the custom builder writes count( * ) where
    [buildAggregationExpression] writes count(). *)
Theorem custom_expression_vs_rollup (a : Aggregation) (col : string) :
  (a <> Acount \/ col <> "*" ->
   customBaseQuery a col
   = lines [ "";
             "    SELECT";
             "      " ++ getTimeBucketFunction "1m" ++ " as timestamp,";
             "      " ++ buildAggregationExpression (rollup_of_aggregation a) col ++ " as value,";
             "      task_identifier as label";
             "    FROM trigger_dev.task_runs_v2 FINAL";
             "  " ])
  /\ customBaseQuery Acount "*"
     = lines [ "";
               "    SELECT";
               "      " ++ getTimeBucketFunction "1m" ++ " as timestamp,";
               "      count(*) as value,";
               "      task_identifier as label";
               "    FROM trigger_dev.task_runs_v2 FINAL";
               "  " ]
  /\ buildAggregationExpression Rcount "*" = "count()".
Proof.
  split; [| split; reflexivity].
  intro H. unfold customBaseQuery.
  assert (He : aggregation_name a ++ "(" ++ col ++ ") as value,"
               = buildAggregationExpression (rollup_of_aggregation a) col ++ " as value,").
  { destruct a; cbn [rollup_of_aggregation buildAggregationExpression aggregation_name];
      try (cbn; now rewrite string_app_assoc).
    destruct H as [H | H]; [congruence |].
    apply String.eqb_neq in H. rewrite H. cbn. now rewrite string_app_assoc. }
  now rewrite He.
Qed.

Lemma custom_expression_vs_rollup_witness :
  customBaseQuery Asum "cost_in_cents"
  = lines [ "";
            "    SELECT";
            "      toStartOfMinute(toDateTime(created_at)) as timestamp,";
            "      sum(cost_in_cents) as value,";
            "      task_identifier as label";
            "    FROM trigger_dev.task_runs_v2 FINAL";
            "  " ].
Proof.
  apply (proj1 (custom_expression_vs_rollup Asum "cost_in_cents")).
  left. discriminate.
Defined.

(** X9.  Whatever the parameters, the base query of a composed query reads
    from the table trigger_dev.task_runs_v2 with FINAL. *)
Theorem base_query_reads_task_runs {R : Type} (ch : R) (p : MetricQueryParams)
    (mt : option MetricType) (cm : option CustomMetric) (b : Builder R) :
  createMetricsQuery ch p mt cm = Ok b ->
  exists before after,
    baseQuery (args b) = before ++ "FROM trigger_dev.task_runs_v2 FINAL" ++ after.
Proof.
  unfold createMetricsQuery, selectQueryBuilder.
  destruct (rollup p) as [r |].
  - cbn [bind]. intro H; injection H as <-. rewrite addClauses_args.
    cbn [getDynamicMetricsQueryBuilder queryBuilder args baseQuery].
    exists (lines [ "";
                    "      SELECT";
                    "        " ++ getTimeBucketFunction (granularity p) ++ " as timestamp,";
                    "        " ++ buildAggregationExpression (type r) (column r) ++ " as value";
                    "      " ]),
           (nl ++ "    ").
    unfold lines. cbn [String.concat]. rewrite !string_app_assoc. reflexivity.
  - destruct mt as [[] |]; cbn [bind]; [| | | | | discriminate].
    + intro H; injection H as <-. rewrite addClauses_args.
      exists (lines [ ""; "      SELECT";
                      "        " ++ minute_bucket ++ " as timestamp,";
                      "        count() as value,";
                      "        task_identifier as label";
                      "      " ]),
             (nl ++ "    ").
      reflexivity.
    + intro H; injection H as <-. rewrite addClauses_args.
      exists (lines [ ""; "      SELECT";
                      "        " ++ minute_bucket ++ " as timestamp,";
                      "        avg(usage_duration_ms) as value,";
                      "        task_identifier as label";
                      "      " ]),
             (nl ++ "      WHERE usage_duration_ms > 0" ++ nl ++ "    ").
      reflexivity.
    + intro H; injection H as <-. rewrite addClauses_args.
      exists (lines [ ""; "      SELECT";
                      "        " ++ minute_bucket ++ " as timestamp,";
                      "        sum(cost_in_cents) as value,";
                      "        task_identifier as label";
                      "      " ]),
             (nl ++ "      WHERE cost_in_cents > 0" ++ nl ++ "    ").
      reflexivity.
    + intro H; injection H as <-. rewrite addClauses_args.
      exists (lines [ ""; "      SELECT";
                      "        " ++ minute_bucket ++ " as timestamp,";
                      "        count() as value,";
                      "        status as label";
                      "      " ]),
             (nl ++ "    ").
      reflexivity.
    + destruct cm as [cm |]; cbn [bind]; [| discriminate].
    intro H; injection H as <-. rewrite addClauses_args.
    cbn [getCustomMetrics queryBuilder args baseQuery].
    exists (lines [ "";
                    "    SELECT";
                    "      " ++ getTimeBucketFunction "1m" ++ " as timestamp,";
                    "      " ++ aggregation_name (aggregation cm) ++ "("
                      ++ custom_column cm ++ ") as value,";
                    "      task_identifier as label";
                    "    " ]),
           (nl ++ "  " ++ customWhereClause (aggregation cm) (custom_column cm)).
    unfold customBaseQuery, lines. cbn [String.concat].
    rewrite !string_app_assoc. reflexivity.
Qed.

End BaseQueryFacts.

Lemma base_query_reads_task_runs_witness :
  Metrics.createMetricsQuery tt Examples.fully_filtered (Some Metrics.MTstatus) None
  = Js.Ok Examples.fully_filtered_query
  /\ exists before after,
      Metrics.baseQuery (Metrics.args Examples.fully_filtered_query)
      = before ++ "FROM trigger_dev.task_runs_v2 FINAL" ++ after.
Proof.
  split; [reflexivity |].
  apply (base_query_reads_task_runs tt Examples.fully_filtered (Some Metrics.MTstatus) None
           Examples.fully_filtered_query eq_refl).
Defined.

(** ** The metrics service *)

Section ServiceFacts.
Import Js Metrics Observe.

(** With a metric type of the service, or with a rollup, the client's
    [createQuery] returns a builder. *)
Lemma service_createQuery_returns {R : Type} (clickhouse : Service.ClickHouse R)
    (p : MetricQueryParams) (mt : option MetricType) :
  rollup p <> None \/ (exists m, mt = Some (Service.to_metric_type m)) ->
  exists query, Service.createQuery clickhouse p mt = Ok query.
Proof.
  intro H. unfold Service.createQuery. apply createMetricsQuery_returns.
  destruct H as [H | [m ->]]; [now left | right].
  destruct m; exact I.
Qed.

(** X10.  [getTaskRunMetrics] never fails while it builds its query: for
    all parameters it asks the client for one query (of metric type count
    when none is given) and executes it; it throws exactly when the
    execution reports an error, with the error's message behind "Failed to
    fetch metrics: ", and returns the execution's result otherwise. *)
Theorem getTaskRunMetrics_runs {R : Type} (clickhouse : Service.ClickHouse R)
    (params : Service.APIMetricQueryParams) (organizationId projectId environmentId : string)
    (metricType : option Service.ServiceMetricType) :
  let chosen := match metricType with Some m => m | None => Service.Scount end in
  let converted :=
    Service.convertAPIParamsToClickHouseParams params organizationId projectId environmentId in
  exists query,
    Service.createQuery clickhouse converted (Some (Service.to_metric_type chosen)) = Ok query
    /\ fst (Service.getTaskRunMetrics clickhouse params organizationId projectId
              environmentId metricType)
       = [ Service.CreateQuery converted (Some (Service.to_metric_type chosen));
           Service.Execute query ]
    /\ snd (Service.getTaskRunMetrics clickhouse params organizationId projectId
              environmentId metricType)
       = match fst (Service.execute clickhouse query) with
         | Some error => Throw (mkError ("Failed to fetch metrics: " ++ message error))
         | None => Ok (snd (Service.execute clickhouse query))
         end.
Proof.
  intros chosen converted.
  destruct (service_createQuery_returns clickhouse converted
              (Some (Service.to_metric_type chosen))) as [query Hq];
    [right; now exists chosen |].
  exists query. split; [exact Hq |].
  unfold Service.getTaskRunMetrics, Service.runQuery.
  fold chosen. fold converted. rewrite Hq.
  destruct (Service.execute clickhouse query) as [[error |] result]; split; reflexivity.
Qed.

(** X11.  When the API parameters carry a rollup, the four specific
    methods no longer differ: count, duration, cost and status all execute
    the query that [getDynamicMetrics] executes, and return the same
    outcome as each other. *)
Theorem metric_methods_agree_under_rollup {R : Type} (clickhouse : Service.ClickHouse R)
    (params : Service.APIMetricQueryParams) (organizationId projectId environmentId : string) :
  Service.rollup params <> None ->
  let dynamic :=
    Service.getDynamicMetrics clickhouse params organizationId projectId environmentId in
  let count :=
    Service.getTaskRunCount clickhouse params organizationId projectId environmentId in
  let duration :=
    Service.getTaskRunDuration clickhouse params organizationId projectId environmentId in
  let cost :=
    Service.getTaskRunCost clickhouse params organizationId projectId environmentId in
  let status :=
    Service.getTaskRunStatus clickhouse params organizationId projectId environmentId in
  (executed (fst count) = executed (fst dynamic)
   /\ executed (fst duration) = executed (fst dynamic)
   /\ executed (fst cost) = executed (fst dynamic)
   /\ executed (fst status) = executed (fst dynamic))
  /\ snd duration = snd count /\ snd cost = snd count /\ snd status = snd count.
Proof.
  intros Hr dynamic count duration cost status.
  subst dynamic count duration cost status.
  assert (Hsame : forall mt,
            Service.createQuery clickhouse
              (Service.convertAPIParamsToClickHouseParams params organizationId projectId
                 environmentId) mt
            = Service.createQuery clickhouse
                (Service.convertAPIParamsToClickHouseParams params organizationId projectId
                   environmentId) None).
  { intro mt. unfold Service.createQuery, createMetricsQuery, selectQueryBuilder.
    cbn [Service.convertAPIParamsToClickHouseParams rollup].
    destruct (Service.rollup params); [reflexivity | congruence]. }
  unfold Service.getDynamicMetrics.
  destruct (Service.rollup params) as [r |] eqn:Hro; [| congruence].
  cbn [truthy_opt_object negb].
  unfold Service.getTaskRunCount, Service.getTaskRunDuration, Service.getTaskRunCost,
         Service.getTaskRunStatus, Service.getTaskRunMetrics, Service.runQuery.
  rewrite !(Hsame (Some _)).
  destruct (Service.createQuery clickhouse _ None) as [query | e];
    [destruct (Service.execute clickhouse query) as [[error |] result] |];
    repeat split; reflexivity.
Qed.

Lemma metric_methods_agree_under_rollup_witness :
  executed (fst (Service.getTaskRunCost Examples.failing_client Examples.api_avg_duration
                   "org_123" "proj_456" "env_789"))
  = executed (fst (Service.getDynamicMetrics Examples.failing_client Examples.api_avg_duration
                     "org_123" "proj_456" "env_789"))
  /\ snd (Service.getTaskRunCost Examples.failing_client Examples.api_avg_duration
            "org_123" "proj_456" "env_789")
     = snd (Service.getTaskRunCount Examples.failing_client Examples.api_avg_duration
              "org_123" "proj_456" "env_789").
Proof.
  assert (Hr : Service.rollup Examples.api_avg_duration <> None) by discriminate.
  destruct (metric_methods_agree_under_rollup Examples.failing_client
              Examples.api_avg_duration "org_123" "proj_456" "env_789" Hr)
    as ((_ & _ & H1 & _) & _ & H2 & _).
  split; [exact H1 | exact H2].
Defined.

Lemma runQuery_executed {R : Type} (clickhouse : Service.ClickHouse R) (prefix : string)
    (p : MetricQueryParams) (mt : option MetricType) (q : Builder R) :
  In q (executed (fst (Service.runQuery clickhouse prefix p mt))) ->
  Service.createQuery clickhouse p mt = Ok q.
Proof.
  unfold Service.runQuery.
  destruct (Service.createQuery clickhouse p mt) as [query | e]; [| intros []].
  destruct (Service.execute clickhouse query) as [error result]. cbn.
  intros [<- | []]. reflexivity.
Qed.

(** X12.  Every query the service executes, through [getTaskRunMetrics] or
    through [getDynamicMetrics], starts with the filters on the
    organization, project and environment ids the method was called with,
    followed by the soft-delete filter. *)
Theorem executed_queries_are_tenant_scoped {R : Type} (clickhouse : Service.ClickHouse R)
    (params : Service.APIMetricQueryParams) (organizationId projectId environmentId : string)
    (metricType : option Service.ServiceMetricType) (q : Builder R) :
  In q (executed (fst (Service.getTaskRunMetrics clickhouse params organizationId projectId
                         environmentId metricType)))
  \/ In q (executed (fst (Service.getDynamicMetrics clickhouse params organizationId
                            projectId environmentId))) ->
  firstn 4 (clauses q)
  = [ Where "organization_id = {organizationId:String}" [("organizationId", Str organizationId)];
      Where "project_id = {projectId:String}" [("projectId", Str projectId)];
      Where "environment_id = {environmentId:String}" [("environmentId", Str environmentId)];
      Where "_is_deleted = 0" [] ].
Proof.
  intro H.
  assert (Hq : exists mt,
            Service.createQuery clickhouse
              (Service.convertAPIParamsToClickHouseParams params organizationId projectId
                 environmentId) mt = Ok q).
  { destruct H as [H | H].
    - unfold Service.getTaskRunMetrics in H. eexists.
      exact (runQuery_executed _ _ _ _ _ H).
    - unfold Service.getDynamicMetrics in H.
      destruct (negb (truthy_opt_object (Service.rollup params))); [destruct H |].
      eexists. exact (runQuery_executed _ _ _ _ _ H). }
  destruct Hq as [mt Hq]. unfold Service.createQuery in Hq.
  rewrite (createMetricsQuery_clauses _ _ _ _ _ Hq). reflexivity.
Qed.

Lemma executed_queries_are_tenant_scoped_witness :
  exists q,
    In q (executed (fst (Service.getDynamicMetrics Examples.idle_client
                           Examples.api_avg_duration "org_123" "proj_456" "env_789")))
    /\ firstn 4 (clauses q)
       = [ Where "organization_id = {organizationId:String}" [("organizationId", Str "org_123")];
           Where "project_id = {projectId:String}" [("projectId", Str "proj_456")];
           Where "environment_id = {environmentId:String}" [("environmentId", Str "env_789")];
           Where "_is_deleted = 0" [] ].
Proof.
  eexists. split; [cbn; left; reflexivity |].
  apply (executed_queries_are_tenant_scoped Examples.idle_client Examples.api_avg_duration
           "org_123" "proj_456" "env_789" None).
  right. cbn. left. reflexivity.
Defined.

(** X13.  With a rollup in the parameters, [getDynamicMetrics] asks for one
    query without a metric type and executes it; the query's value
    expression is the rollup's aggregate and its time bucket the one of
    the granularity; an execution error is rethrown with its message
    behind "Failed to fetch dynamic metrics: ". *)
Theorem getDynamicMetrics_runs {R : Type} (clickhouse : Service.ClickHouse R)
    (params : Service.APIMetricQueryParams) (organizationId projectId environmentId : string)
    (r : Rollup) :
  Service.rollup params = Some r ->
  let converted :=
    Service.convertAPIParamsToClickHouseParams params organizationId projectId environmentId in
  let run :=
    Service.getDynamicMetrics clickhouse params organizationId projectId environmentId in
  exists query,
    fst run = [ Service.CreateQuery converted None; Service.Execute query ]
    /\ baseQuery (args query)
       = lines [ "";
                 "      SELECT";
                 "        " ++ getTimeBucketFunction (Service.granularity params)
                   ++ " as timestamp,";
                 "        " ++ buildAggregationExpression (type r) (column r) ++ " as value";
                 "      FROM trigger_dev.task_runs_v2 FINAL";
                 "    " ]
    /\ snd run
       = match fst (Service.execute clickhouse query) with
         | Some error => Throw (mkError ("Failed to fetch dynamic metrics: " ++ message error))
         | None => Ok (snd (Service.execute clickhouse query))
         end.
Proof.
  intros Hr converted run. subst run.
  unfold Service.getDynamicMetrics, Service.runQuery, Service.createQuery.
  rewrite Hr. cbn [truthy_opt_object negb]. fold converted.
  unfold createMetricsQuery, selectQueryBuilder.
  assert (Hc : rollup converted = Some r) by exact Hr.
  rewrite Hc. cbn [bind].
  eexists. split; [| split].
  - destruct (Service.execute clickhouse _) as [error result]. reflexivity.
  - rewrite addClauses_args. reflexivity.
  - destruct (Service.execute clickhouse _) as [[error |] result]; reflexivity.
Qed.

Lemma getDynamicMetrics_runs_witness :
  exists query,
    fst (Service.getDynamicMetrics Examples.failing_client Examples.api_avg_duration
           "org_123" "proj_456" "env_789")
    = [ Service.CreateQuery
          (Service.convertAPIParamsToClickHouseParams Examples.api_avg_duration
             "org_123" "proj_456" "env_789") None;
        Service.Execute query ]
    /\ snd (Service.getDynamicMetrics Examples.failing_client Examples.api_avg_duration
              "org_123" "proj_456" "env_789")
       = Throw (mkError "Failed to fetch dynamic metrics: Timeout exceeded").
Proof.
  destruct (getDynamicMetrics_runs Examples.failing_client Examples.api_avg_duration
              "org_123" "proj_456" "env_789" (mkRollup Ravg "usage_duration_ms") eq_refl)
    as (query & H1 & _ & H3).
  exists query. split; [exact H1 | exact H3].
Defined.

End ServiceFacts.

(** ** The loader, path by path *)

Section LoaderFacts.
Import Js Route.

Variable requireUserId : LoaderFunctionArgs -> Result Thrown string.
Variable findUnique : string -> string -> Result Thrown (option Environment).
Variable createSearchParams : string -> Result Thrown SearchParams.
Variable zod_message : string.
Variable presenter : string -> string -> string -> MetricsQuery -> Result Thrown (list unit).

Let run := loader_with requireUserId findUnique createSearchParams zod_message presenter.

(** X14.  When the lookup finds no environment for the user, the loader
    answers with the not-found text under status 200: the response is
    built without a status, and nothing is logged. *)
Theorem missing_environment_response (a : LoaderFunctionArgs) (userId environmentId : string) :
  requireUserId a = Ok userId ->
  route_param "environmentId" (route_params a) = Some environmentId ->
  findUnique environmentId userId = Ok None ->
  run a
  = (Ok (mkResponse
           (Text "This environment does not exist or you do not have permission to access it")
           200),
     []).
Proof.
  intros Hu Hp Hf. unfold run, loader_with, ParamsSchema_parse, loader_try.
  now rewrite Hu, Hp, Hf.
Qed.

(** X15.  What is thrown before the try block leaves the loader as it is:
    whatever the session check throws, and the zod error for route
    parameters without an environment id, which is an Error and still not
    turned into a 500 response.  No lookup result matters on these paths
    and nothing is logged. *)
Theorem early_failures_propagate (a : LoaderFunctionArgs) :
  (forall t, requireUserId a = Throw t -> run a = (Throw t, []))
  /\ (forall userId,
        requireUserId a = Ok userId ->
        route_param "environmentId" (route_params a) = None ->
        run a = (Throw (ThrownError (mkError zod_message)), [])
        /\ response_of (fst (run a)) = None).
Proof.
  unfold run, loader_with, ParamsSchema_parse. split.
  - intros t Ht. now rewrite Ht.
  - intros userId Hu Hp. now rewrite Hu, Hp.
Qed.



End LoaderFacts.

Section StubFacts.
Import Js Route.

(** X16.  Behind the stub presenter, every request that is let through
    (signed in, environment found, search parameters accepted) gets the
    JSON body with an empty metrics list and status 200, whatever metrics
    it asked for; nothing is logged. *)
Theorem loader_returns_empty_metrics
    (requireUserId : LoaderFunctionArgs -> Result Thrown string)
    (findUnique : string -> string -> Result Thrown (option Environment))
    (createSearchParams : string -> Result Thrown SearchParams)
    (zod_message : string)
    (a : LoaderFunctionArgs) (userId environmentId : string)
    (env : Environment) (query : MetricsQuery) :
  requireUserId a = Ok userId ->
  route_param "environmentId" (route_params a) = Some environmentId ->
  findUnique environmentId userId = Ok (Some env) ->
  createSearchParams (request_url a) = Ok (Success query) ->
  loader requireUserId findUnique createSearchParams zod_message a
  = (Ok (mkResponse (Json []) 200), []).
Proof.
  intros Hu Hp Hf Hs. unfold loader, loader_with, ParamsSchema_parse, loader_try.
  rewrite Hu, Hp, Hf. cbn [bind]. rewrite Hs. reflexivity.
Qed.

End StubFacts.

Lemma missing_environment_response_witness :
  Route.loader Examples.signed_in Examples.environment_missing Examples.malformed_search
    "Required" Examples.metrics_request
  = (Js.Ok (Route.mkResponse
              (Route.Text
                 "This environment does not exist or you do not have permission to access it")
              200),
     []).
Proof.
  exact (missing_environment_response Examples.signed_in Examples.environment_missing
           Examples.malformed_search "Required" Route.MetricPresenter_call
           Examples.metrics_request "user_1" "env_789" eq_refl eq_refl eq_refl).
Defined.

Lemma early_failures_propagate_witness :
  Route.loader Examples.signed_out Examples.environment_found Examples.malformed_search
    "Required" Examples.metrics_request
  = (Js.Throw (Route.ThrownResponse (Route.mkResponse (Route.Text "/login") 302)), [])
  /\ Route.loader Examples.signed_in Examples.environment_found Examples.well_formed_search
       "Required" (Route.mkArgs "https://cloud.example/metrics" [])
     = (Js.Throw (Route.ThrownError (Js.mkError "Required")), []).
Proof.
  split.
  - apply (proj1 (early_failures_propagate Examples.signed_out Examples.environment_found
                    Examples.malformed_search "Required" Route.MetricPresenter_call
                    Examples.metrics_request)).
    reflexivity.
  - apply (proj2 (early_failures_propagate Examples.signed_in Examples.environment_found
                    Examples.well_formed_search "Required" Route.MetricPresenter_call
                    (Route.mkArgs "https://cloud.example/metrics" [])) "user_1");
      reflexivity.
Defined.



Lemma loader_returns_empty_metrics_witness :
  Route.loader Examples.signed_in Examples.environment_found Examples.well_formed_search
    "Required" Examples.metrics_request
  = (Js.Ok (Route.mkResponse (Route.Json []) 200), []).
Proof.
  exact (loader_returns_empty_metrics Examples.signed_in Examples.environment_found
           Examples.well_formed_search "Required" Examples.metrics_request
           "user_1" "env_789" (Route.mkEnvironment "org_123" "proj_456")
           (Route.mkMetricsQuery ["runs"] Examples.api_without_rollup)
           eq_refl eq_refl eq_refl eq_refl).
Defined.

(** ** The parameter schema *)

Section SchemaFacts.
Import Js Metrics Schema.

(** X19.  The rollup type of the schema accepts the six names of the enum
    and nothing else, and reads each name as the rollup type that
    [rollup_name] writes back. *)
Theorem rollup_type_names (v : JsValue) (t : RollupType) :
  z_rollup_type v = Some t <-> v = VStr (rollup_name t).
Proof.
  split.
  - destruct v as [| | b | n | s | fs | items]; cbn; try discriminate.
    destruct (s =? "count")%string eqn:E1;
      [apply String.eqb_eq in E1; intro H; inversion H; now subst |].
    destruct (s =? "sum")%string eqn:E2;
      [apply String.eqb_eq in E2; intro H; inversion H; now subst |].
    destruct (s =? "avg")%string eqn:E3;
      [apply String.eqb_eq in E3; intro H; inversion H; now subst |].
    destruct (s =? "min")%string eqn:E4;
      [apply String.eqb_eq in E4; intro H; inversion H; now subst |].
    destruct (s =? "max")%string eqn:E5;
      [apply String.eqb_eq in E5; intro H; inversion H; now subst |].
    destruct (s =? "distinct")%string eqn:E6;
      [apply String.eqb_eq in E6; intro H; inversion H; now subst | discriminate].
  - intros ->. destruct t; reflexivity.
Qed.

(** X20.  Parameters the schema accepts come from an object whose
    organizationId, projectId, environmentId and granularity are strings
    and whose startTime is a string or a number, and they carry exactly
    those values; a rollup is absent from them exactly when the object has
    none. *)
Theorem accepted_params_reflect_object (v : JsValue) (p : MetricQueryParams) :
  parseMetricQueryParams v = Some p ->
  exists fields,
    v = VObj fields
    /\ get "organizationId" fields = VStr (organizationId p)
    /\ get "projectId" fields = VStr (projectId p)
    /\ get "environmentId" fields = VStr (environmentId p)
    /\ get "granularity" fields = VStr (granularity p)
    /\ get "startTime" fields
       = match startTime p with Str s => VStr s | Num n => VNum n end
    /\ (rollup p = None <-> get "rollup" fields = VUndefined).
Proof.
  destruct v as [| | b | n | s | fs | items]; try discriminate.
  unfold parseMetricQueryParams. intro H. exists fs.
  destruct (get "organizationId" fs) as [| | ? | ? | o | ? | ?]; try discriminate H.
  destruct (get "projectId" fs) as [| | ? | ? | pr | ? | ?]; try discriminate H.
  destruct (get "environmentId" fs) as [| | ? | ? | en | ? | ?]; try discriminate H.
  cbn [z_string] in H.
  destruct (z_string_or_number (get "startTime" fs)) as [st |] eqn:Hst; [| discriminate H].
  destruct (z_optional z_string_or_number (get "endTime" fs)) as [et |]; [| discriminate H].
  destruct (get "granularity" fs) as [| | ? | ? | g | ? | ?]; try discriminate H.
  cbn [z_string] in H.
  destruct (z_optional z_filters (get "filters" fs)) as [f |]; [| discriminate H].
  destruct (z_optional z_string (get "groupBy" fs)) as [gb |]; [| discriminate H].
  destruct (z_optional z_rollup (get "rollup" fs)) as [r |] eqn:Hr; [| discriminate H].
  inversion H; subst; clear H. cbn.
  repeat split; try reflexivity.
  - destruct (get "startTime" fs); cbn in Hst; inversion Hst; reflexivity.
  - intros ->. unfold z_optional in Hr.
    destruct (get "rollup" fs) as [| | ? | ? | ? | rf | ?];
      [reflexivity | discriminate Hr .. | | discriminate Hr].
    destruct (z_rollup (VObj rf)); cbn [option_map] in Hr; discriminate Hr.
  - intro Hu. rewrite Hu in Hr. cbn in Hr. now inversion Hr.
Qed.

Lemma accepted_params_reflect_object_witness :
  parseMetricQueryParams Examples.sum_of_nothing_raw = Some Examples.sum_of_nothing
  /\ exists fields,
      Examples.sum_of_nothing_raw = VObj fields
      /\ get "granularity" fields = VStr "1h".
Proof.
  split; [reflexivity |].
  destruct (accepted_params_reflect_object Examples.sum_of_nothing_raw
              Examples.sum_of_nothing eq_refl) as (fields & Hv & _ & _ & _ & Hg & _).
  exists fields. split; [exact Hv | exact Hg].
Defined.

(** X21.  The schema of the metrics module accepts an object exactly when
    the API schema accepts it and its three tenant ids are strings; the
    accepted parameters are then the conversion of the API parameters
    under those ids. *)
Theorem schemas_agree_through_conversion (fields : list (string * JsValue))
    (p : MetricQueryParams) :
  parseMetricQueryParams (VObj fields) = Some p
  <-> exists api,
        ApiSchema.parseAPIMetricQueryParams (VObj fields) = Some api
        /\ get "organizationId" fields = VStr (organizationId p)
        /\ get "projectId" fields = VStr (projectId p)
        /\ get "environmentId" fields = VStr (environmentId p)
        /\ p = Service.convertAPIParamsToClickHouseParams api
                 (organizationId p) (projectId p) (environmentId p).
Proof.
  unfold parseMetricQueryParams, ApiSchema.parseAPIMetricQueryParams. split.
  - intro H.
    destruct (get "organizationId" fields) as [| | ? | ? | o | ? | ?]; try discriminate H.
    destruct (get "projectId" fields) as [| | ? | ? | pr | ? | ?]; try discriminate H.
    destruct (get "environmentId" fields) as [| | ? | ? | en | ? | ?]; try discriminate H.
    cbn [z_string] in H.
    destruct (z_string_or_number (get "startTime" fields)) as [st |]; [| discriminate H].
    destruct (z_optional z_string_or_number (get "endTime" fields)) as [et |];
      [| discriminate H].
    destruct (z_string (get "granularity" fields)) as [g |]; [| discriminate H].
    destruct (z_optional z_filters (get "filters" fields)) as [f |]; [| discriminate H].
    destruct (z_optional z_string (get "groupBy" fields)) as [gb |]; [| discriminate H].
    destruct (z_optional z_rollup (get "rollup" fields)) as [r |]; [| discriminate H].
    inversion H; subst; clear H. eexists. repeat split.
  - intros (api & Ha & Ho & Hp & He & Hc).
    rewrite Ho, Hp, He. cbn [z_string].
    destruct (z_string_or_number (get "startTime" fields)) as [st |]; [| discriminate Ha].
    destruct (z_optional z_string_or_number (get "endTime" fields)) as [et |];
      [| discriminate Ha].
    destruct (z_string (get "granularity" fields)) as [g |]; [| discriminate Ha].
    destruct (z_optional z_filters (get "filters" fields)) as [f |]; [| discriminate Ha].
    destruct (z_optional z_string (get "groupBy" fields)) as [gb |]; [| discriminate Ha].
    destruct (z_optional z_rollup (get "rollup" fields)) as [r |]; [| discriminate Ha].
    inversion Ha; subst api; clear Ha. rewrite Hc. reflexivity.
Qed.

End SchemaFacts.
